(** * Repository remediation handler: fetch, analyse/remediate, publish

    A shallow embedding of [lamda_function.py].  The program is sequential
    glue around two remote services (the repository hosting API and a
    hosted language model); the embedding keeps the remote services as
    oracles over an abstract server state and records every call the
    program makes, so that statements about "what was sent" and "what was
    returned" can both be made.

    Python [str] values are modelled by [string], each character standing
    for one code point below 256. *)

From Stdlib Require Import String Ascii List ZArith QArith Lia Bool DecimalString.
Import ListNotations.
Close Scope Q_scope.
Open Scope string_scope.

Set Implicit Arguments.

(* ------------------------------------------------------------------ *)
(** ** Python built-ins used by the handler *)

Module Py.

Definition nl : string := String "010"%char EmptyString.

(** [s.endswith(e)] *)
Fixpoint endswith (s e : string) : bool :=
  if String.eqb s e then true
  else match s with
       | EmptyString => false
       | String _ s' => endswith s' e
       end.

(** [sub in s] on two strings: substring test. *)
Fixpoint contains (s sub : string) : bool :=
  if String.prefix sub s then true
  else match s with
       | EmptyString => false
       | String _ s' => contains s' sub
       end.

(** [str.isspace] on one code point below 256. *)
Definition isspace (c : ascii) : bool :=
  let n := nat_of_ascii c in
  (((9 <=? n) && (n <=? 13)) || ((28 <=? n) && (n <=? 32))
   || (n =? 133) || (n =? 160))%nat.

Fixpoint lstrip_by (p : ascii -> bool) (s : string) : string :=
  match s with
  | EmptyString => EmptyString
  | String c s' => if p c then lstrip_by p s' else s
  end.

Fixpoint rstrip_by (p : ascii -> bool) (s : string) : string :=
  match s with
  | EmptyString => EmptyString
  | String c s' =>
      match rstrip_by p s' with
      | EmptyString => if p c then EmptyString else String c EmptyString
      | r => String c r
      end
  end.

Definition strip_by (p : ascii -> bool) (s : string) : string :=
  rstrip_by p (lstrip_by p s).

(** [s.strip()] *)
Definition strip (s : string) : string := strip_by isspace s.

(** [s.strip('/')] *)
Definition strip_slash (s : string) : string :=
  strip_by (Ascii.eqb "/"%char) s.

(** [s.split(sep)] for a one-character separator. *)
Fixpoint split (sep : ascii) (s : string) : list string :=
  match s with
  | EmptyString => [EmptyString]
  | String c s' =>
      if Ascii.eqb c sep then EmptyString :: split sep s'
      else match split sep s' with
           | h :: t => String c h :: t
           | [] => [String c EmptyString]
           end
  end.

(** [l[-1]] on the (never empty) result of a split. *)
Definition last_item (l : list string) : string := last l EmptyString.

(** [sep.join(l)] *)
Definition join (sep : string) (l : list string) : string :=
  String.concat sep l.

(** The characters of a string, each as a one-character string: what
    iterating over a [str] yields. *)
Fixpoint chars (s : string) : list string :=
  match s with
  | EmptyString => []
  | String c s' => String c EmptyString :: chars s'
  end.

Definition is_lower (c : ascii) : bool :=
  let n := nat_of_ascii c in ((97 <=? n) && (n <=? 122))%nat.

Definition is_tick (c : ascii) : bool := Ascii.eqb c "`"%char.

(** Three backticks start at a character [c] followed by [s']. *)
Definition fence_at (c : ascii) (s' : string) : bool :=
  match s' with
  | String c2 (String c3 _) => is_tick c && is_tick c2 && is_tick c3
  | _ => false
  end.

(** [re.sub(r"```[a-z]*", "", s)]: scan left to right; at three
    backticks drop them and the lower-case letters that follow.
    [in_tag] is true while the letters after a fence are being eaten. *)
Fixpoint sub_fence_go (in_tag : bool) (s : string) : string :=
  match s with
  | EmptyString => EmptyString
  | String c s' =>
      if in_tag && is_lower c then sub_fence_go true s'
      else
        match s' with
        | String c2 (String c3 rest) =>
            if is_tick c && is_tick c2 && is_tick c3
            then sub_fence_go true rest
            else String c (sub_fence_go false s')
        | _ => String c (sub_fence_go false s')
        end
  end.

Definition sub_fence (s : string) : string := sub_fence_go false s.

(** [s.replace(old, "")] for a non-empty [old]: occurrences are found
    left to right and do not overlap.  [skip] counts the characters of
    the occurrence being removed that are still to be dropped. *)
Fixpoint remove_go (old : string) (skip : nat) (s : string) : string :=
  match s with
  | EmptyString => EmptyString
  | String c s' =>
      match skip with
      | S k => remove_go old k s'
      | O =>
          if String.prefix old s then remove_go old (String.length old - 1) s'
          else String c (remove_go old 0 s')
      end
  end.

Definition remove_all (old s : string) : string := remove_go old 0 s.

(** [re.findall(r"(p1|p2|...)", s)] for literal alternatives: at each
    position the alternatives are tried in order; a match is reported
    and the scan resumes after it. *)
Fixpoint first_prefix (pats : list string) (s : string) : option string :=
  match pats with
  | [] => None
  | p :: ps => if String.prefix p s then Some p else first_prefix ps s
  end.

Fixpoint findall_go (pats : list string) (skip : nat) (s : string)
  : list string :=
  match s with
  | EmptyString => []
  | String c s' =>
      match skip with
      | S k => findall_go pats k s'
      | O =>
          match first_prefix pats s with
          | Some p => p :: findall_go pats (String.length p - 1) s'
          | None => findall_go pats 0 s'
          end
      end
  end.

Definition findall (pats : list string) (s : string) : list string :=
  findall_go pats 0 s.

(** [s.encode()]: UTF-8 of code points below 256. *)
Fixpoint encode (s : string) : list N :=
  match s with
  | EmptyString => []
  | String c s' =>
      let n := N_of_ascii c in
      if (n <? 128)%N then n :: encode s'
      else (192 + N.shiftr n 6)%N :: (128 + N.land n 63)%N :: encode s'
  end.

Definition b64_alphabet : string :=
  "ABCDEFGHIJKLMNOPQRSTUVWXYZabcdefghijklmnopqrstuvwxyz0123456789+/".

Definition b64_digit (n : N) : ascii :=
  match String.get (N.to_nat n) b64_alphabet with
  | Some c => c
  | None => "="%char
  end.

(** [base64.b64encode(bs).decode()] *)
Fixpoint b64encode (bs : list N) : string :=
  match bs with
  | [] => EmptyString
  | [a] =>
      String (b64_digit (N.shiftr a 2))
        (String (b64_digit (N.shiftl (N.land a 3) 4)) "==")
  | [a; b] =>
      String (b64_digit (N.shiftr a 2))
        (String (b64_digit (N.lor (N.shiftl (N.land a 3) 4) (N.shiftr b 4)))
           (String (b64_digit (N.shiftl (N.land b 15) 2)) "="))
  | a :: b :: c :: rest =>
      String (b64_digit (N.shiftr a 2))
        (String (b64_digit (N.lor (N.shiftl (N.land a 3) 4) (N.shiftr b 4)))
           (String (b64_digit (N.lor (N.shiftl (N.land b 15) 2) (N.shiftr c 6)))
              (String (b64_digit (N.land c 63)) (b64encode rest))))
  end.

(** [str(n)] for an integer. *)
Definition str_of_Z (z : Z) : string := NilZero.string_of_int (Z.to_int z).

(** [f"{v}"] for a value that is a [str] or [None]. *)
Definition fmt (v : option string) : string :=
  match v with
  | Some s => s
  | None => "None"
  end.

End Py.

(* ------------------------------------------------------------------ *)
(** ** Values, dictionaries, exceptions *)

(** An argument that the code receives as [None], a [str] or a list of
    [str]: the two exclusion arguments. *)
Inductive pyval :=
| PNone
| PStr (s : string)
| PList (l : list string).

(** Truth value of an object in a condition. *)
Definition truthy (v : pyval) : bool :=
  match v with
  | PNone => false
  | PStr s => negb (String.eqb s "")
  | PList l => match l with [] => false | _ :: _ => true end
  end.

(** [x in v]: membership in a list, substring test in a [str].  The code
    evaluates it only behind [truthy], so [None] never reaches it. *)
Definition py_in (x : string) (v : pyval) : bool :=
  match v with
  | PNone => false
  | PStr s => Py.contains s x
  | PList l => existsb (String.eqb x) l
  end.

(** A [dict] from [str] to [str], in insertion order. *)
Definition dict := list (string * string).

(** [d[k] = v]: an existing key keeps its position. *)
Fixpoint dict_set (d : dict) (k v : string) : dict :=
  match d with
  | [] => [(k, v)]
  | (k', v') :: d' =>
      if String.eqb k' k then (k, v) :: d' else (k', v') :: dict_set d' k v
  end.

(** [d.update(other)] *)
Definition dict_update (d other : dict) : dict :=
  fold_left (fun acc kv => dict_set acc (fst kv) (snd kv)) other d.

(** [d.get(k)] *)
Fixpoint dict_get (d : dict) (k : string) : option string :=
  match d with
  | [] => None
  | (k', v') :: d' => if String.eqb k' k then Some v' else dict_get d' k
  end.

Definition keys (d : dict) : list string := map fst d.

Inductive exn :=
| KeyError (key : string)
| TypeError (msg : string)
| ValueError (msg : string)
| HTTPError (msg : string)
| UnboundLocalError (var : string)
| RecursionError
| RemoteError (msg : string).

(** [str(e)]; a [KeyError] prints the [repr] of its key. *)
Definition str_exn (e : exn) : string :=
  match e with
  | KeyError k => "'" ++ k ++ "'"
  | TypeError m | ValueError m | HTTPError m | RemoteError m => m
  | UnboundLocalError v =>
      "cannot access local variable '" ++ v
      ++ "' where it is not associated with a value"
  | RecursionError => "maximum recursion depth exceeded"
  end.

Inductive Res (A : Type) :=
| Ok (a : A)
| Raise (e : exn).
Arguments Ok {A} a.
Arguments Raise {A} e.

(* ------------------------------------------------------------------ *)
(** ** The remote services *)

(** JSON payloads the program sends. *)
#[local] Unset Elimination Schemes.
Inductive json :=
| JStr (s : string)
| JInt (z : Z)
| JReal (q : Q)
| JArr (l : list json)
| JObj (fields : list (string * json)).
#[local] Set Elimination Schemes.

(** [requests.get(url, headers=headers)], [requests.post(url, json=...)],
    [requests.patch(url, json=...)]; the constant [headers] is left out. *)
Inductive Request :=
| GET (url : string)
| POST (url : string) (payload : json)
| PATCH (url : string) (payload : json).

(** One entry of a directory listing. *)
Record Item := {
  i_type : string;
  i_path : string;
  i_download_url : string
}.

(** Why looking an id up in the JSON body of a response fails: a key is
    missing ([KeyError] of that key: "object" or "sha"), the value
    subscripted is no JSON object ([TypeError]), or the body is no JSON
    (the decoding error of the client library). *)
Inductive LookupFailure :=
| MissingKey (key : string)
| NotSubscriptable (msg : string)
| NotJson (msg : string).

Definition lookup_exn (f : LookupFailure) : exn :=
  match f with
  | MissingKey key => KeyError key
  | NotSubscriptable msg => TypeError msg
  | NotJson msg => RemoteError msg
  end.

(** What the program reads of an HTTP response.  [json_sha] is the commit,
    blob or tree id that the lookup in the JSON body yields
    ([["object"]["sha"]] for a ref, [["sha"]] otherwise); when the lookup
    yields none, [json_failure] says why.  [json_items] is the body of a
    directory listing. *)
Record Response := {
  status_code : Z;
  reason : string;
  url : string;
  text : string;
  json_sha : option string;
  json_failure : LookupFailure;
  json_items : list Item
}.

(** [bedrock.invoke_model(body=..., modelId=..., contentType=..., accept=...)] *)
Record ModelCall := {
  body : json;
  modelId : string;
  contentType : string;
  accept : string
}.

(** The remote world: each call is answered from the server state, by a
    response or by an exception of the client library (given by its
    message), and may change that state.  A model call answers with the
    ["completion"] field of its JSON body, if present. *)
Record Remote (W : Type) := {
  send : Request -> W -> (string + Response) * W;
  invoke_model : ModelCall -> W -> (string + option string) * W
}.

(** A call the program made, with the answer it got. *)
Inductive Exchange :=
| Http (r : Request) (answer : string + Response)
| Invoke (m : ModelCall) (answer : string + option string).

(** State threaded through the program: the server and the exchanges so
    far, oldest first. *)
Record St (W : Type) := {
  server : W;
  log : list Exchange
}.

Definition is_write (x : Exchange) : bool :=
  match x with
  | Http (POST _ _) _ | Http (PATCH _ _) _ => true
  | _ => false
  end.

(** The invocation event and the response envelope. *)
Record Param := {
  name : option string;
  value : option string
}.

Record Event := {
  agent : option string;
  actionGroup : option string;
  function : option string;
  parameters : option (list Param);
  messageVersion : option string
}.

(** [{'response': {'actionGroup': .., 'function': ..,
      'functionResponse': {'responseBody': {'TEXT': {'body': ..}}}},
     'messageVersion': ..}] *)
Record Envelope := {
  r_actionGroup : string;
  r_function : string;
  r_body : option string;
  r_messageVersion : string
}.

(** The event [create_new_branch] receives. *)
Record PublishEvent := {
  repository_link : option string;
  remediations : dict;
  base_branch : option string;
  new_branch_name : option string
}.

(* ------------------------------------------------------------------ *)
(** ** The program *)

Section Handler.

Variable W : Type.
Variable remote : Remote W.

(** [urlparse(u).path] for a [str] [u] (standard library; it can raise
    [ValueError] on a malformed URL). *)
Variable urlparse_path : string -> Res string.

(** Computations: state passing with exceptions; an exception keeps the
    state reached (side effects are not rolled back). *)
Definition M (A : Type) : Type := St W -> Res A * St W.

Definition ret {A} (a : A) : M A := fun st => (Ok a, st).

Definition raise {A} (e : exn) : M A := fun st => (Raise e, st).

Definition bind {A B} (m : M A) (k : A -> M B) : M B :=
  fun st =>
    match m st with
    | (Ok a, st') => k a st'
    | (Raise e, st') => (Raise e, st')
    end.

Definition lift {A} (r : Res A) : M A := fun st => (r, st).

Notation "x <- m ;; k" := (bind m (fun x => k))
  (at level 61, m at next level, right associativity).
Notation "m ;;; k" := (bind m (fun _ => k))
  (at level 61, right associativity).

Definition requests (r : Request) : M Response :=
  fun st =>
    let (ans, s') := send remote r (server st) in
    let st' := {| server := s'; log := log st ++ [Http r ans] |} in
    match ans with
    | inl msg => (Raise (RemoteError msg), st')
    | inr resp => (Ok resp, st')
    end.

Definition bedrock_invoke_model (m : ModelCall) : M (option string) :=
  fun st =>
    let (ans, s') := invoke_model remote m (server st) in
    let st' := {| server := s'; log := log st ++ [Invoke m ans] |} in
    match ans with
    | inl msg => (Raise (RemoteError msg), st')
    | inr completion => (Ok completion, st')
    end.

(** [response.raise_for_status()] *)
Definition http_error_msg (r : Response) : option string :=
  if ((400 <=? status_code r) && (status_code r <? 500))%Z then
    Some (Py.str_of_Z (status_code r) ++ " Client Error: " ++ reason r
          ++ " for url: " ++ url r)
  else if ((500 <=? status_code r) && (status_code r <? 600))%Z then
    Some (Py.str_of_Z (status_code r) ++ " Server Error: " ++ reason r
          ++ " for url: " ++ url r)
  else None.

Definition raise_for_status (r : Response) : M unit :=
  match http_error_msg r with
  | Some msg => raise (HTTPError msg)
  | None => ret tt
  end.

(** [urlparse(repo_link).path.strip('/')].  For [None], [urlparse]
    answers with [bytes] fields and the [strip('/')] on [b''] raises. *)
Definition repo_path_of (repo_link : option string) : Res string :=
  match repo_link with
  | None => Raise (TypeError "a bytes-like object is required, not 'str'")
  | Some u =>
      match urlparse_path u with
      | Ok p => Ok (Py.strip_slash p)
      | Raise e => Raise e
      end
  end.

Definition contents_url (repo_path path : string) (branch : option string)
  : string :=
  "https://api.github.com/repos/" ++ repo_path ++ "/contents/" ++ path
  ++ "?ref=" ++ Py.fmt branch.

Definition folder_name_of (item : Item) : string :=
  Py.last_item (Py.split "/" (i_path item)).

Definition skips_folder (exclude_folders : pyval) (item : Item) : bool :=
  truthy exclude_folders && py_in (folder_name_of item) exclude_folders.

(** The loop over the items of one listing; [descend] is the recursive
    call of the function on a sub-directory. *)
Fixpoint fetch_items (descend : string -> M dict) (exclude_folders : pyval)
    (items : list Item) (files : dict) : M dict :=
  match items with
  | [] => ret files
  | item :: rest =>
      if String.eqb (i_type item) "dir" then
        if skips_folder exclude_folders item then
          fetch_items descend exclude_folders rest files
        else
          sub <- descend (i_path item) ;;
          fetch_items descend exclude_folders rest (dict_update files sub)
      else if String.eqb (i_type item) "file" then
        r <- requests (GET (i_download_url item)) ;;
        fetch_items descend exclude_folders rest
          (dict_set files (i_path item) (text r))
      else fetch_items descend exclude_folders rest files
  end.

(** [fetch_repository_contents(repo_link, branch, path, exclude_folders)].
    [fuel] is the depth of recursion the interpreter still allows. *)
Fixpoint fetch_repository_contents (fuel : nat)
    (repo_link branch : option string) (path : string)
    (exclude_folders : pyval) {struct fuel} : M dict :=
  match fuel with
  | O => raise RecursionError
  | S fuel' =>
      repo_path <- lift (repo_path_of repo_link) ;;
      response <- requests (GET (contents_url repo_path path branch)) ;;
      raise_for_status response ;;;
      fetch_items
        (fun sub_path =>
           fetch_repository_contents fuel' repo_link branch sub_path
             exclude_folders)
        exclude_folders (json_items response) []
  end.

(** *** Analysis and remediation *)

Definition issue_patterns : list string :=
  ["potential security vulnerability"; "code style issue";
   "performance issue"; "code complexity issue"; "potential bug"].

Definition model_body (prompt : string) (max_tokens : Z) (temperature : Q)
  : json :=
  JObj [("prompt", JStr prompt);
        ("max_tokens_to_sample", JInt max_tokens);
        ("temperature", JReal temperature);
        ("top_k", JInt 50);
        ("top_p", JReal (19 # 20)%Q);
        ("stop_sequences", JArr [JStr (Py.nl ++ Py.nl ++ "Human:")])].

Definition model_call (b : json) : ModelCall :=
  {| body := b;
     modelId := "anthropic.claude-v2:1";
     contentType := "application/json";
     accept := "*/*" |}.

Definition completion_of (c : option string) : string :=
  match c with
  | Some s => s
  | None => EmptyString
  end.

Definition analysis_prompt (code : string) : string :=
  Py.nl ++ Py.nl ++ "Human: Please analyze the following code:"
  ++ Py.nl ++ Py.nl ++ "Code:" ++ Py.nl ++ code
  ++ Py.nl ++ Py.nl ++ "Assistant:".

Definition analyze_code (code : string) : M (list string) :=
  response <- bedrock_invoke_model
                (model_call (model_body (analysis_prompt code) 1000 (1 # 2)%Q)) ;;
  let analysis := Py.strip (completion_of response) in
  ret (Py.findall issue_patterns analysis).

Definition remediation_prompt (code : string) (issues : list string)
  : string :=
  Py.nl ++ "Human: Please fix the identified issues in the code below and return only the modified code without any explanations, summaries, or code block delimiters."
  ++ Py.nl ++ Py.nl ++ "Code:" ++ Py.nl ++ code
  ++ Py.nl ++ Py.nl ++ "Issues identified:" ++ Py.nl ++ Py.join ", " issues
  ++ Py.nl ++ Py.nl ++ "Assistant:".

Definition preamble : string :=
  "Here is the fixed code without any additional explanations or summaries:".

(** The post-processing of a remediation completion. *)
Definition clean_remediation (completion : string) : string :=
  let remediation := Py.strip completion in
  let remediation := Py.strip (Py.sub_fence remediation) in
  Py.strip (Py.remove_all preamble remediation).

Definition remediate_code (code : string) (issues : list string) : M string :=
  response <- bedrock_invoke_model
                (model_call (model_body (remediation_prompt code issues)
                               2000 (7 # 10)%Q)) ;;
  ret (clean_remediation (completion_of response)).

(** [iter(v)]: the elements of a list, the characters of a [str]. *)
Definition py_iter (v : pyval) : Res (list string) :=
  match v with
  | PNone => Raise (TypeError "'NoneType' object is not iterable")
  | PStr s => Ok (Py.chars s)
  | PList l => Ok l
  end.

Definition is_non_code (file_path : string) (exts : list string) : bool :=
  existsb (fun ext => Py.endswith file_path ext) exts.

Fixpoint remediate_items (items : dict) (non_code_exts : pyval)
    (remediations : dict) : M dict :=
  match items with
  | [] => ret remediations
  | (file_path, file_content) :: rest =>
      exts <- lift (py_iter non_code_exts) ;;
      if is_non_code file_path exts then
        remediate_items rest non_code_exts remediations
      else
        issues <- analyze_code file_content ;;
        remediated_code <- remediate_code file_content issues ;;
        remediate_items rest non_code_exts
          (dict_set remediations file_path remediated_code)
  end.

Definition analyze_and_remediate_code (code_repo : dict)
    (non_code_exts : pyval) : M dict :=
  remediate_items code_repo non_code_exts [].

(** *** Publishing *)

Definition api (repo_path rest : string) : string :=
  "https://api.github.com/repos/" ++ repo_path ++ rest.

Definition ref_url (repo_path : string) (branch : option string) : string :=
  api repo_path ("/git/refs/heads/" ++ Py.fmt branch).

(** [response.json()["object"]["sha"]] for a ref, [response.json()["sha"]]
    otherwise. *)
Definition sha_of (r : Response) : M string :=
  match json_sha r with
  | Some sha => ret sha
  | None => raise (lookup_exn (json_failure r))
  end.

Definition blob_payload (remediated_code : string) : json :=
  JObj [("content", JStr (Py.b64encode (Py.encode remediated_code)));
        ("encoding", JStr "base64")].

Definition tree_entry (file_path blob_sha : string) : json :=
  JObj [("path", JStr file_path); ("mode", JStr "100644");
        ("type", JStr "blob"); ("sha", JStr blob_sha)].

Fixpoint create_blobs (repo_path : string) (items : dict)
    (blobs : list json) : M (list json) :=
  match items with
  | [] => ret blobs
  | (file_path, remediated_code) :: rest =>
      r <- requests (POST (api repo_path "/git/blobs")
                       (blob_payload remediated_code)) ;;
      blob_sha <- sha_of r ;;
      create_blobs repo_path rest (blobs ++ [tree_entry file_path blob_sha])
  end.

Definition ref_payload (new_branch_name : option string)
    (base_commit : string) : json :=
  JObj [("ref", JStr ("refs/heads/" ++ Py.fmt new_branch_name));
        ("sha", JStr base_commit)].

Definition tree_payload (base_tree_sha : string) (blobs : list json) : json :=
  JObj [("base_tree", JStr base_tree_sha); ("tree", JArr blobs)].

Definition commit_payload (new_tree_sha base_commit : string) : json :=
  JObj [("message", JStr "Remediated code"); ("tree", JStr new_tree_sha);
        ("parents", JArr [JStr base_commit])].

Definition create_new_branch (event : PublishEvent) : M (option string) :=
  let repo_link := repository_link event in
  let remediations := remediations event in
  let base_branch := base_branch event in
  let new_branch_name := new_branch_name event in
  repo_path <- lift (repo_path_of repo_link) ;;
  r <- requests (GET (ref_url repo_path base_branch)) ;;
  base_commit <- sha_of r ;;
  r <- requests (GET (ref_url repo_path new_branch_name)) ;;
  if (status_code r =? 200)%Z then
    raise (ValueError ("Branch " ++ Py.fmt new_branch_name
                       ++ " already exists."))
  else
    requests (POST (api repo_path "/git/refs")
                (ref_payload new_branch_name base_commit)) ;;;
    blobs <- create_blobs repo_path remediations [] ;;
    r <- requests (GET (api repo_path ("/git/trees/" ++ base_commit))) ;;
    base_tree_sha <- sha_of r ;;
    r <- requests (POST (api repo_path "/git/trees")
                     (tree_payload base_tree_sha blobs)) ;;
    new_tree_sha <- sha_of r ;;
    r <- requests (POST (api repo_path "/git/commits")
                     (commit_payload new_tree_sha base_commit)) ;;
    new_commit_sha <- sha_of r ;;
    requests (PATCH (ref_url repo_path new_branch_name)
                (JObj [("sha", JStr new_commit_sha)])) ;;;
    ret new_branch_name.

(** *** The entry point *)

(** [{param["name"]: param["value"] for param in parameters}] *)
Fixpoint build_properties (params : list Param) (acc : dict) : Res dict :=
  match params with
  | [] => Ok acc
  | param :: rest =>
      match name param with
      | None => Raise (KeyError "name")
      | Some n =>
          match value param with
          | None => Raise (KeyError "value")
          | Some v => build_properties rest (dict_set acc n v)
          end
      end
  end.

(** [event.get('parameters', {})] *)
Definition get_parameters (event : Event) : list Param :=
  match parameters event with
  | Some ps => ps
  | None => []
  end.

Definition as_pyval (v : option string) : pyval :=
  match v with
  | Some s => PStr s
  | None => PNone
  end.

(** The [try] body from the line that reads the parameters on;
    [actionGroup] and [function] are bound by then. *)
Definition pipeline (fuel : nat) (event : Event)
    (actionGroup function : string) : M Envelope :=
  let parameters := get_parameters event in
  properties <- lift (build_properties parameters []) ;;
  let repo_link := dict_get properties "repository_url" in
  let branch := dict_get properties "branch_name" in
  let non_code_exts := dict_get properties "file_extensions_to_exclude" in
  let exclude_folders := dict_get properties "folders_to_exclude" in
  let new_branch_name := dict_get properties "new_remediated_branch_name" in
  code_repo <- fetch_repository_contents fuel repo_link branch ""
                 (as_pyval exclude_folders) ;;
  remediations <- analyze_and_remediate_code code_repo
                    (as_pyval non_code_exts) ;;
  let create_branch_event :=
    {| repository_link := repo_link;
       remediations := remediations;
       base_branch := branch;
       new_branch_name := new_branch_name |} in
  new_branch_name <- create_new_branch create_branch_event ;;
  match messageVersion event with
  | None => raise (KeyError "messageVersion")
  | Some mv =>
      ret {| r_actionGroup := actionGroup;
             r_function := function;
             r_body := new_branch_name;
             r_messageVersion := mv |}
  end.

(** The local variables an [except] clause reads. *)
Record Locals := {
  l_actionGroup : option string;
  l_function : option string
}.

(** The [try] block: its outcome and the locals bound when it ended. *)
Definition try_block (fuel : nat) (event : Event)
  : St W -> (Locals * Res Envelope) * St W :=
  fun st =>
    match agent event with
    | None =>
        ({| l_actionGroup := None; l_function := None |},
         Raise (KeyError "agent"), st)
    | Some _ =>
        match actionGroup event with
        | None =>
            ({| l_actionGroup := None; l_function := None |},
             Raise (KeyError "actionGroup"), st)
        | Some ag =>
            match function event with
            | None =>
                ({| l_actionGroup := Some ag; l_function := None |},
                 Raise (KeyError "function"), st)
            | Some fn =>
                let (r, st') := pipeline fuel event ag fn st in
                ({| l_actionGroup := Some ag; l_function := Some fn |},
                 r, st')
            end
        end
    end.

(** The body shared by the two [except] clauses: build the envelope
    around an error text from the locals and the event. *)
Definition error_response (body_text : string) (locals : Locals)
    (event : Event) : Res Envelope :=
  match l_actionGroup locals with
  | None => Raise (UnboundLocalError "actionGroup")
  | Some ag =>
      match l_function locals with
      | None => Raise (UnboundLocalError "function")
      | Some fn =>
          match messageVersion event with
          | None => Raise (KeyError "messageVersion")
          | Some mv =>
              Ok {| r_actionGroup := ag;
                    r_function := fn;
                    r_body := Some body_text;
                    r_messageVersion := mv |}
          end
      end
  end.

(** [lambda_handler(event, context)]: [Ok] is a returned envelope,
    [Raise] an exception that leaves the handler. *)
Definition lambda_handler (fuel : nat) (event : Event)
  : St W -> Res Envelope * St W :=
  fun st =>
    match try_block fuel event st with
    | (_, Ok final_response, st') => (Ok final_response, st')
    | (locals, Raise (KeyError k), st') =>
        (error_response ("Missing required information: "
                         ++ str_exn (KeyError k)) locals event, st')
    | (locals, Raise e, st') =>
        (error_response ("Error: " ++ str_exn e) locals event, st')
    end.

End Handler.

(* ------------------------------------------------------------------ *)
(** ** Vocabulary of the statements *)

Section ModelCalls.

Variable W : Type.
Variable remote : Remote W.

(** The two model calls made for a file. *)
Definition analysis_call (code : string) : ModelCall :=
  model_call (model_body (analysis_prompt code) 1000 (1 # 2)%Q).

Definition issues_found (analysis_completion : option string) : list string :=
  Py.findall issue_patterns (Py.strip (completion_of analysis_completion)).

Definition remediation_call (code : string) (issues : list string)
  : ModelCall :=
  model_call (model_body (remediation_prompt code issues) 2000 (7 # 10)%Q).

(** The model answers every call (with some completion or none). *)
Definition model_answers : Prop :=
  forall m s, exists c s', invoke_model remote m s = (inr c, s').

(** State after a file was analysed and remediated. *)
Definition after_file (st : St W) (code : string)
    (c1 c2 : option string) (s2 : W) : St W :=
  {| server := s2;
     log := log st
            ++ [Invoke (analysis_call code) (inr c1);
                Invoke (remediation_call code (issues_found c1)) (inr c2)] |}.

(** A path that ends with none of the extensions. *)
Definition kept (exts : list string) (p : string) : bool :=
  negb (is_non_code p exts).

End ModelCalls.

(** The code-fence marker, and a text that starts with a backtick. *)
Definition fence : string := "```".

Definition starts_tick (s : string) : bool :=
  match s with
  | String c _ => Py.is_tick c
  | EmptyString => false
  end.

Section DirectoryTree.

(** The directory tree as the hosting API lists it, directory by
    directory, and the folder names to leave out. *)
Variable listing : string -> list Item.
Variable names : list string.

(** The folder name the code computes for a directory entry is in the
    exclusion set. *)
Definition excluded_name (item : Item) : bool :=
  existsb (String.eqb (folder_name_of item)) names.

Definition entered (item : Item) : bool :=
  String.eqb (i_type item) "dir" && negb (excluded_name item).

(** [Descends d d']: [d'] is [d] or lies below it through directories
    none of which has an excluded name. *)
Inductive Descends : string -> string -> Prop :=
| Descends_here d : Descends d d
| Descends_into d item d' :
    In item (listing d) -> entered item = true ->
    Descends (i_path item) d' -> Descends d d'.

(** [Fetched root p]: a file with path [p] is listed in a directory
    that the descent from [root] reaches. *)
Definition Fetched (root p : string) : Prop :=
  exists d item,
    Descends root d /\ In item (listing d)
    /\ i_type item = "file" /\ i_path item = p.

(** The tree below [d] is at most [fuel] directories deep. *)
Fixpoint shallow (fuel : nat) (d : string) : bool :=
  match fuel with
  | O => false
  | S fuel' =>
      forallb (fun item => negb (entered item) || shallow fuel' (i_path item))
              (listing d)
  end.

End DirectoryTree.

(* ------------------------------------------------------------------ *)
(** ** Excluded folders, in the words of the specification *)

(** A text without a slash. *)
Definition slash_free (n : string) : Prop :=
  forall before after, n <> (before ++ String "/" after)%string.

(** [last_segment p n]: [n] is the last segment of the path [p], what
    follows its last slash, or all of [p] when it has no slash. *)
Definition last_segment (p n : string) : Prop :=
  slash_free n
  /\ (p = n \/ exists parent, p = (parent ++ String "/" n)%string).

Section ExcludedFolders.

Variable listing : string -> list Item.
Variable names : list string.

(** The folder at path [p] bears one of the excluded names. *)
Definition excluded_folder (p : string) : Prop :=
  exists n, In n names /\ last_segment p n.

(** [Below d d']: [d'] is [d], or a folder listed under [d] at any depth
    such that neither [d'] nor a folder between [d] and [d'] bears an
    excluded name. *)
Inductive Below : string -> string -> Prop :=
| Below_here d : Below d d
| Below_into d item d' :
    In item (listing d) -> i_type item = "dir" ->
    ~ excluded_folder (i_path item) ->
    Below (i_path item) d' -> Below d d'.

(** [Expected root p]: [p] is a file listed in [root] or in a folder
    below it, under no folder with an excluded name. *)
Definition Expected (root p : string) : Prop :=
  exists d item,
    Below root d /\ In item (listing d)
    /\ i_type item = "file" /\ i_path item = p.

(** The folders to visit below [d] are nested less than [fuel] deep. *)
Fixpoint depth_within (fuel : nat) (d : string) : Prop :=
  match fuel with
  | O => False
  | S fuel' =>
      forall item, In item (listing d) -> i_type item = "dir" ->
        ~ excluded_folder (i_path item) -> depth_within fuel' (i_path item)
  end.

End ExcludedFolders.

(** The exchange of a blob upload and the tree entry made from it; a
    blob is given by the response to its upload and the id read from
    that response. *)
Definition blob_exchange (repo_path : string)
    (upload : (string * string) * (Response * string)) : Exchange :=
  let '((_, remediated_code), (resp, _)) := upload in
  Http (POST (api repo_path "/git/blobs") (blob_payload remediated_code))
       (inr resp).

Definition blob_entry (upload : (string * string) * (Response * string))
  : json :=
  let '((file_path, _), (_, blob_sha)) := upload in
  JObj [("path", JStr file_path); ("mode", JStr "100644");
        ("type", JStr "blob"); ("sha", JStr blob_sha)].

Definition carries_sha (blob : Response * string) : Prop :=
  json_sha (fst blob) = Some (snd blob).

(* ------------------------------------------------------------------ *)
(** ** A mock of the remote services, for worked examples *)

Module Mock.

(** The path of a URL on the hosting site. *)
Definition urlparse_path (u : string) : Res string :=
  if String.prefix "https://github.com" u
  then Ok (String.substring 18 (String.length u - 18) u)
  else Ok u.

Definition repo_link : string := "https://github.com/octo/demo/".
Definition repo_path : string := "octo/demo".

Definition dir (p : string) : Item :=
  {| i_type := "dir"; i_path := p; i_download_url := "" |}.

Definition file (p : string) : Item :=
  {| i_type := "file"; i_path := p;
     i_download_url := "https://raw.example/octo/demo/main/" ++ p |}.

(** The repository on branch [main]. *)
Definition listing (path : string) : list Item :=
  if String.eqb path "" then
    [dir "src"; dir "node_modules"; file "a.py"; file "README.md";
     {| i_type := "symlink"; i_path := "latest"; i_download_url := "" |}]
  else if String.eqb path "src" then
    [file "src/b.py"; dir "src/node_modules"; dir "src/lib"]
  else if String.eqb path "src/lib" then [file "src/lib/c.py"]
  else if String.eqb path "node_modules" then [file "node_modules/x.js"]
  else if String.eqb path "src/node_modules" then
    [file "src/node_modules/y.js"]
  else [].

Definition directories : list string :=
  [""; "src"; "src/lib"; "node_modules"; "src/node_modules"].

Definition answer (status : Z) (why u body : string) (sha : option string)
    (items : list Item) : Response :=
  {| status_code := status; reason := why; url := u; text := body;
     json_sha := sha;
     json_failure :=
       if Py.contains u "/git/refs/heads/" then MissingKey "object"
       else MissingKey "sha";
     json_items := items |}.

(** The knobs of the mock: the status of file downloads, whether branch
    [fix/1] exists already, and what the model completes a remediation
    prompt with. *)
Record Config := {
  download_status : Z;
  branch_exists : bool;
  remediation_completion : option string
}.

Definition get (cfg : Config) (u : string) : Response :=
  match find (fun d => String.eqb u (contents_url repo_path d (Some "main")))
             directories with
  | Some d => answer 200 "OK" u "" None (listing d)
  | None =>
      if String.prefix "https://raw.example/" u then
        if (download_status cfg =? 200)%Z
        then answer 200 "OK" u ("# " ++ String.substring 35 (String.length u - 35) u) None []
        else answer (download_status cfg) "Not Found" u "404: Not Found" None []
      else if String.eqb u (ref_url repo_path (Some "main")) then
        answer 200 "OK" u "" (Some "C1") []
      else if String.eqb u (ref_url repo_path (Some "fix/1")) then
        if branch_exists cfg then answer 200 "OK" u "" (Some "C0") []
        else answer 404 "Not Found" u "" None []
      else if String.eqb u (api repo_path "/git/trees/C1") then
        answer 200 "OK" u "" (Some "T1") []
      else answer 404 "Not Found" u "" None []
  end.

(** The server state counts the objects created so far; a created
    object is named after its number. *)
Definition answer_request (cfg : Config) (r : Request) (n : nat)
  : (string + Response) * nat :=
  match r with
  | GET u => (inr (get cfg u), n)
  | POST u _ =>
      (inr (answer 201 "Created" u ""
              (Some ("obj" ++ Py.str_of_Z (Z.of_nat n))) []), S n)
  | PATCH u _ => (inr (answer 200 "OK" u "" None []), n)
  end.

Definition prompt_of (b : json) : string :=
  match b with
  | JObj ((_, JStr prompt) :: _) => prompt
  | _ => ""
  end.

(** The model finds nothing to report in any analysis and completes a
    remediation prompt as configured. *)
Definition answer_model (cfg : Config) (m : ModelCall) (n : nat)
  : (string + option string) * nat :=
  if String.prefix (Py.nl ++ Py.nl ++ "Human: Please analyze")
       (prompt_of (body m))
  then (inr (Some " Nothing stands out. "), n)
  else (inr (remediation_completion cfg), n).

Definition remote (cfg : Config) : Remote nat :=
  {| send := answer_request cfg; invoke_model := answer_model cfg |}.

Definition healthy : Config :=
  {| download_status := 200;
     branch_exists := false;
     remediation_completion :=
       Some ("```python" ++ Py.nl ++ "print(1)" ++ Py.nl ++ "```") |}.

(** A model that wraps the preamble in backticks. *)
Definition fenced : Config :=
  {| download_status := 200;
     branch_exists := false;
     remediation_completion := Some ("`" ++ preamble ++ "``") |}.

(** A model that nests the preamble in itself. *)
Definition nested : Config :=
  {| download_status := 200;
     branch_exists := false;
     remediation_completion :=
       Some ("Here is " ++ preamble
             ++ "the fixed code without any additional explanations or summaries:") |}.

(** File downloads answer 404. *)
Definition broken_download : Config :=
  {| download_status := 404;
     branch_exists := false;
     remediation_completion := Some "print(1)" |}.

(** Branch [fix/1] exists already. *)
Definition branch_taken : Config :=
  {| download_status := 200;
     branch_exists := true;
     remediation_completion := Some "print(1)" |}.

Definition start : St nat := {| server := 0; log := [] |}.

Definition param (n v : string) : Param :=
  {| name := Some n; value := Some v |}.

Definition event (ps : list Param) : Event :=
  {| agent := Some "remediator";
     actionGroup := Some "repo-actions";
     function := Some "remediate";
     parameters := Some ps;
     messageVersion := Some "1.0" |}.

End Mock.

(* ------------------------------------------------------------------ *)
(** ** Vocabulary for the effects of a call *)

Definition is_get (x : Exchange) : bool :=
  match x with
  | Http (GET _) _ => true
  | _ => false
  end.

Definition is_invoke (x : Exchange) : bool :=
  match x with
  | Invoke _ _ => true
  | _ => false
  end.

(** [only P m]: whatever its outcome, the computation [m] keeps the log it
    finds and adds to it only exchanges that satisfy [P]. *)
Definition only {W A : Type} (P : Exchange -> bool) (m : M W A) : Prop :=
  forall st r st',
    m st = (r, st') ->
    exists made, log st' = (log st ++ made)%list /\ forallb P made = true.

Definition anything (x : Exchange) : bool := true.

(** [c] is the body of a response to a GET among [made]. *)
Definition downloaded (made : list Exchange) (c : string) : Prop :=
  exists u resp, In (Http (GET u) (inr resp)) made /\ text resp = c.

(** The first, respectively last, character of a text satisfies [p]. *)
Definition starts_with (p : ascii -> bool) (s : string) : bool :=
  match s with
  | String c _ => p c
  | EmptyString => false
  end.

Fixpoint ends_with (p : ascii -> bool) (s : string) : bool :=
  match s with
  | EmptyString => false
  | String c EmptyString => p c
  | String _ s' => ends_with p s'
  end.

(* ------------------------------------------------------------------ *)
(** ** Worked runs on the mock *)

Definition mock_exclusions : pyval := PList ["node_modules"].

Definition mock_fetch : Res dict * St nat :=
  fetch_repository_contents (Mock.remote Mock.healthy) Mock.urlparse_path 5
    (Some Mock.repo_link) (Some "main") "" mock_exclusions Mock.start.

(** A hosting API that lists the path "a.py" twice, with two download
    addresses, and answers a download with the address asked for. *)
Definition listed_twice : Remote nat :=
  {| send := fun r n =>
       match r with
       | GET u =>
           if String.prefix "https://api.github.com/" u then
             (inr (Mock.answer 200 "OK" u "" None
                     [ {| i_type := "file"; i_path := "a.py";
                          i_download_url := "first" |};
                       {| i_type := "file"; i_path := "a.py";
                          i_download_url := "second" |} ]), n)
           else (inr (Mock.answer 200 "OK" u u None []), n)
       | _ => (inl "unreachable", n)
       end;
     invoke_model := fun _ n => (inl "unreachable", n) |}.

Definition mock_repo : dict := [("a.py", "print(1)"); ("README.md", "hi")].

Definition mock_analysis : Res dict * St nat :=
  analyze_and_remediate_code (Mock.remote Mock.healthy) mock_repo
    (PList [".md"]) Mock.start.

Definition mock_publish_event (base : string) : PublishEvent :=
  {| repository_link := Some Mock.repo_link;
     remediations := [("a.py", "print(1)")];
     base_branch := Some base;
     new_branch_name := Some "fix/1" |}.

Definition mock_publish : Res (option string) * St nat :=
  create_new_branch (Mock.remote Mock.healthy) Mock.urlparse_path
    (mock_publish_event "main") Mock.start.

(** A model that names two issues in every completion. *)
Definition talkative : Remote nat :=
  {| send := Mock.answer_request Mock.healthy;
     invoke_model := fun _ n =>
       (inr (Some "I see a potential bug and a code style issue."), n) |}.

Definition mock_request : Event :=
  Mock.event [Mock.param "repository_url" Mock.repo_link;
              Mock.param "branch_name" "main";
              Mock.param "folders_to_exclude" "node_modules";
              Mock.param "file_extensions_to_exclude" "d";
              Mock.param "new_remediated_branch_name" "fix/1"].

Definition mock_pipeline : Res Envelope * St nat :=
  pipeline (Mock.remote Mock.healthy) Mock.urlparse_path 5 mock_request
    "repo-actions" "remediate" Mock.start.

Definition nameless_parameter : Param := {| name := None; value := Some "main" |}.

(** An exchange that was answered, not failed by the client library. *)
Definition answered (x : Exchange) : bool :=
  match x with
  | Http _ (inr _) | Invoke _ (inr _) => true
  | _ => false
  end.

(** [failed_with x msg]: the exchange [x] failed with message [msg]. *)
Definition failed_with (x : Exchange) (msg : string) : Prop :=
  match x with
  | Http _ (inl m) | Invoke _ (inl m) => m = msg
  | _ => False
  end.

(** [fails_fast m]: a run of [m] that returns was answered every time; a
    run that raises was answered every time but the last, and raises the
    failure of that last exchange. *)
Definition fails_fast {W A : Type} (m : M W A) : Prop :=
  forall st r st',
    m st = (r, st') ->
    exists made,
      log st' = (log st ++ made)%list
      /\ match r with
         | Ok _ => forallb answered made = true
         | Raise e =>
             exists good x msg,
               made = (good ++ [x])%list
               /\ forallb answered good = true
               /\ failed_with x msg
               /\ e = RemoteError msg
         end.

Definition mock_request_without_extensions : Event :=
  Mock.event [Mock.param "repository_url" Mock.repo_link;
              Mock.param "branch_name" "main";
              Mock.param "new_remediated_branch_name" "fix/1"].

(* ------------------------------------------------------------------ *)
(** ** Worked examples of the built-ins *)

Example endswith_ex : Py.endswith "README.md" ".md" = true /\ Py.endswith "a.py" ".md" = false
  /\ Py.endswith "abc" "" = true.
Proof. repeat split; reflexivity. Qed.

Example strip_ex : Py.strip (" " ++ Py.nl ++ "x y" ++ Py.nl) = "x y".
Proof. reflexivity. Qed.

Example strip_slash_ex : Py.strip_slash "/owner/repo/" = "owner/repo".
Proof. reflexivity. Qed.

Example split_ex : Py.split "/" "a/b/" = ["a"; "b"; ""] /\ Py.split "/" "" = [""]
  /\ Py.last_item (Py.split "/" "src/node_modules") = "node_modules".
Proof. repeat split; reflexivity. Qed.

Example sub_fence_ex :
  Py.sub_fence ("```python" ++ Py.nl ++ "x = 1" ++ Py.nl ++ "```") = Py.nl ++ "x = 1" ++ Py.nl.
Proof. reflexivity. Qed.

Example remove_all_ex : Py.remove_all "ab" "xababyaab" = "xya".
Proof. reflexivity. Qed.

Example findall_ex :
  Py.findall ["potential bug"; "code style issue"]
    "potential bugpotential bug code style issue"
  = ["potential bug"; "potential bug"; "code style issue"].
Proof. reflexivity. Qed.

Example b64_ex : Py.b64encode (Py.encode ("hi" ++ String "233"%char "")) = "aGnDqQ=="
  /\ Py.b64encode (Py.encode "print(1)") = "cHJpbnQoMSk=".
Proof. split; reflexivity. Qed.

Example str_of_Z_ex : Py.str_of_Z 404 = "404".
Proof. reflexivity. Qed.

(* ------------------------------------------------------------------ *)
(** ** The entry point *)

Section EntryPoint.

Variable W : Type.
Variable remote : Remote W.
Variable urlparse_path : string -> Res string.

Lemma error_response_identified body_text ag fn event mv :
  messageVersion event = Some mv ->
  error_response body_text
    {| l_actionGroup := Some ag; l_function := Some fn |} event
  = Ok {| r_actionGroup := ag; r_function := fn;
          r_body := Some body_text; r_messageVersion := mv |}.
Proof. intros Hmv. unfold error_response. cbn. now rewrite Hmv. Qed.

(** With the four identifiers present the handler always answers with
    an envelope, whatever the remote services do. *)
Lemma lambda_handler_returns_when_identified fuel event a ag fn mv st :
  agent event = Some a -> actionGroup event = Some ag ->
  function event = Some fn -> messageVersion event = Some mv ->
  exists body_text st',
    lambda_handler remote urlparse_path fuel event st
    = (Ok {| r_actionGroup := ag; r_function := fn;
             r_body := body_text; r_messageVersion := mv |}, st').
Proof.
  intros Ha Hag Hfn Hmv. unfold lambda_handler, try_block.
  rewrite Ha, Hag, Hfn.
  destruct (pipeline remote urlparse_path fuel event ag fn st) as [r st'] eqn:Hp.
  destruct r as [env | e].
  - assert (Hshape : r_actionGroup env = ag /\ r_function env = fn
                     /\ r_messageVersion env = mv).
    { unfold pipeline in Hp. rewrite Hmv in Hp.
      repeat match type of Hp with
             | bind ?m ?k ?s = _ =>
                 unfold bind at 1 in Hp;
                 let r := fresh "r" in let s1 := fresh "s" in
                 destruct (m s) as [r s1]; destruct r; [ | discriminate Hp]
             end.
      unfold ret in Hp. inversion Hp; subst. cbn. auto. }
    destruct env as [eag efn ebody emv]. cbn in Hshape.
    destruct Hshape as (-> & -> & ->). eauto.
  - destruct e; rewrite (error_response_identified _ _ _ _ Hmv); eauto.
Qed.

(** The properties built from the parameters hold no key that no
    parameter is named after. *)
Lemma dict_get_set_other d k v k' :
  k <> k' -> dict_get (dict_set d k v) k' = dict_get d k'.
Proof.
  intros Hne. induction d as [| [k0 v0] d IH]; cbn.
  - destruct (String.eqb_spec k k'); congruence.
  - destruct (String.eqb_spec k0 k) as [-> | Hk0].
    + cbn. destruct (String.eqb_spec k k'); congruence.
    + cbn. destruct (String.eqb_spec k0 k'); auto.
Qed.

Lemma build_properties_absent params : forall acc props k,
  build_properties params acc = Ok props ->
  dict_get acc k = None ->
  (forall param, In param params -> name param <> Some k) ->
  dict_get props k = None.
Proof.
  induction params as [| param rest IH]; intros acc props k Hb Hacc Hno; cbn in Hb.
  - now inversion Hb; subst.
  - destruct (name param) as [n |] eqn:Hn; [ | discriminate].
    destruct (value param) as [v |]; [ | discriminate].
    apply (IH _ _ _ Hb).
    + rewrite dict_get_set_other; auto.
      intros ->. apply (Hno param); cbn; auto.
    + intros q Hq. apply Hno. now right.
Qed.

(** Without a message version the [try] body cannot complete. *)
Lemma pipeline_needs_message_version fuel event ag fn st :
  messageVersion event = None ->
  exists e st', pipeline remote urlparse_path fuel event ag fn st = (Raise e, st').
Proof.
  intros Hmv.
  destruct (pipeline remote urlparse_path fuel event ag fn st) as [r st'] eqn:Hp.
  destruct r as [env | e]; [ | eauto]. exfalso.
  unfold pipeline in Hp. rewrite Hmv in Hp.
  repeat match type of Hp with
         | bind ?m ?k ?s = _ =>
             unfold bind at 1 in Hp;
             let r := fresh "r" in let s1 := fresh "s" in
             destruct (m s) as [r s1]; destruct r; [ | discriminate Hp]
         end.
  discriminate Hp.
Qed.

(** C1 (defect in the code).  The specification has the handler never let an
    exception leave.  For an event that lacks the "agent" key the
    [KeyError] is caught, but the [except] clause then reads the local
    [actionGroup], which was never assigned: an [UnboundLocalError]
    leaves the handler, with no remote call made.  The same happens
    without "actionGroup" or "function"; without "messageVersion" the
    [except] clause itself raises [KeyError]. *)
Theorem C1_exception_escapes fuel st a ag fn
    (oag ofn omv : option string) (ps : option (list Param)) :
  lambda_handler remote urlparse_path fuel
    {| agent := None; actionGroup := oag; function := ofn;
       parameters := ps; messageVersion := omv |} st
  = (Raise (UnboundLocalError "actionGroup"), st)
  /\ lambda_handler remote urlparse_path fuel
       {| agent := Some a; actionGroup := None; function := ofn;
          parameters := ps; messageVersion := omv |} st
     = (Raise (UnboundLocalError "actionGroup"), st)
  /\ lambda_handler remote urlparse_path fuel
       {| agent := Some a; actionGroup := Some ag; function := None;
          parameters := ps; messageVersion := omv |} st
     = (Raise (UnboundLocalError "function"), st)
  /\ exists st',
       lambda_handler remote urlparse_path fuel
         {| agent := Some a; actionGroup := Some ag; function := Some fn;
            parameters := ps; messageVersion := None |} st
       = (Raise (KeyError "messageVersion"), st').
Proof.
  split; [reflexivity | ]. split; [reflexivity | ]. split; [reflexivity | ].
  set (event := {| agent := Some a; actionGroup := Some ag;
                   function := Some fn; parameters := ps;
                   messageVersion := None |}).
  destruct (pipeline_needs_message_version fuel event ag fn st eq_refl)
    as (e & st' & Hp).
  exists st'. unfold lambda_handler, try_block. cbn [agent actionGroup function event].
  rewrite Hp. destruct e; reflexivity.
Qed.

(** What the handler does without a repository URL.  When the event
    carries its four identifiers, every parameter entry has a name and a
    value, and no parameter is named "repository_url", the absent URL
    reaches the fetcher as [None] and fails there, before any remote call:
    the [except Exception] clause answers, not the [except KeyError]
    clause. *)
Lemma absent_repository_url_generic_error
    fuel event a ag fn mv props st :
  agent event = Some a -> actionGroup event = Some ag ->
  function event = Some fn -> messageVersion event = Some mv ->
  build_properties (get_parameters event) [] = Ok props ->
  (forall param, In param (get_parameters event) ->
                 name param <> Some "repository_url") ->
  (0 < fuel)%nat ->
  lambda_handler remote urlparse_path fuel event st
  = (Ok {| r_actionGroup := ag; r_function := fn;
           r_body := Some "Error: a bytes-like object is required, not 'str'";
           r_messageVersion := mv |}, st)
  /\ Py.contains "Error: a bytes-like object is required, not 'str'"
       "Missing required information" = false.
Proof.
  intros Ha Hag Hfn Hmv Hprops Habsent Hfuel. split; [ | reflexivity].
  assert (Hurl : dict_get props "repository_url" = None).
  { eapply build_properties_absent; eauto. }
  unfold lambda_handler, try_block. rewrite Ha, Hag, Hfn.
  unfold pipeline. unfold bind at 1. unfold lift at 1. rewrite Hprops.
  rewrite Hurl. destruct fuel as [| fuel']; [lia | ].
  cbn. now rewrite Hmv.
Qed.

End EntryPoint.

(** C2 (defect in the code).  The specification says an invocation
    without the "repository_url" parameter is answered with "Missing
    required information" and the name of the key, and the handler has an
    [except KeyError] clause that builds exactly that text.  The parameter
    is read with [properties.get], which raises nothing: for the event
    below, which has no "repository_url" parameter, the clause never runs
    and the text body is that of the catch-all clause. *)
Theorem C2_missing_url_is_not_reported :
  let event := Mock.event [Mock.param "branch_name" "main"] in
  (forall param, In param (get_parameters event) ->
                 name param <> Some "repository_url")
  /\ exists envelope body_text,
       fst (lambda_handler (Mock.remote Mock.healthy) Mock.urlparse_path 100
              event Mock.start) = Ok envelope
       /\ r_body envelope = Some body_text
       /\ String.prefix "Error: " body_text = true
       /\ Py.contains body_text "Missing required information" = false
       /\ Py.contains body_text "repository_url" = false.
Proof.
  cbn zeta. split.
  - intros param [<- | []]. cbn. discriminate.
  - eexists. eexists. split; [vm_compute; reflexivity | ].
    split; [reflexivity | ]. repeat split.
Qed.

(* ------------------------------------------------------------------ *)
(** ** Analysis and remediation *)

Open Scope list_scope.

Lemma endswith_spec (s e : string) :
  Py.endswith s e = true <-> exists pre, s = (pre ++ e)%string.
Proof.
  induction s as [| c s IH]; cbn [Py.endswith].
  - destruct (String.eqb_spec "" e) as [<- | Hne].
    + split; [exists ""; reflexivity | reflexivity].
    + split; [discriminate | ].
      intros [pre Hpre]. destruct pre; cbn in Hpre; [congruence | discriminate].
  - destruct (String.eqb_spec (String c s) e) as [<- | Hne].
    + split; [exists ""; reflexivity | reflexivity].
    + rewrite IH. split.
      * intros [pre ->]. exists (String c pre). reflexivity.
      * intros [pre Hpre]. destruct pre as [| c' pre]; cbn in Hpre.
        -- congruence.
        -- exists pre. congruence.
Qed.

Lemma is_non_code_spec (p : string) (exts : list string) :
  is_non_code p exts = true <-> exists e pre, In e exts /\ p = (pre ++ e)%string.
Proof.
  unfold is_non_code. rewrite existsb_exists. split.
  - intros (e & He & Hend). apply endswith_spec in Hend as [pre Hpre]. eauto.
  - intros (e & pre & He & Hp). exists e. split; [assumption | ].
    apply endswith_spec. eauto.
Qed.

Lemma keys_dict_set (d : dict) (k v p : string) :
  In p (keys (dict_set d k v)) <-> p = k \/ In p (keys d).
Proof.
  induction d as [| [k0 v0] d IH]; cbn.
  - intuition.
  - destruct (String.eqb_spec k0 k) as [-> | Hne]; cbn; [intuition | ].
    rewrite IH. intuition.
Qed.

Lemma keys_dict_set_fresh (d : dict) (k v : string) :
  ~ In k (keys d) -> keys (dict_set d k v) = keys d ++ [k].
Proof.
  induction d as [| [k0 v0] d IH]; cbn; intros Hfresh; [reflexivity | ].
  destruct (String.eqb_spec k0 k) as [-> | Hne]; [tauto | ].
  cbn. f_equal. apply IH. tauto.
Qed.

Section Analyzer.

Variable W : Type.
Variable remote : Remote W.

Lemma file_step {A} code (k : string -> M W A) st a st' :
  bind (analyze_code remote code)
       (fun issues => bind (remediate_code remote code issues) k) st
  = (Ok a, st') ->
  exists c1 s1 c2 s2,
    invoke_model remote (analysis_call code) (server st) = (inr c1, s1)
    /\ invoke_model remote (remediation_call code (issues_found c1)) s1
       = (inr c2, s2)
    /\ k (clean_remediation (completion_of c2)) (after_file st code c1 c2 s2)
       = (Ok a, st').
Proof.
  unfold bind, analyze_code, remediate_code, bedrock_invoke_model, ret, bind.
  fold (analysis_call code).
  destruct (invoke_model remote (analysis_call code) (server st))
    as [[msg | c1] s1] eqn:H1; [discriminate | ].
  cbn [server log]. fold (issues_found c1).
  fold (remediation_call code (issues_found c1)).
  destruct (invoke_model remote (remediation_call code (issues_found c1)) s1)
    as [[msg | c2] s2] eqn:H2; [discriminate | ].
  intros Hk. exists c1, s1, c2, s2.
  split; [reflexivity | split; [exact H2 | ]].
  unfold after_file. rewrite <- app_assoc in Hk. exact Hk.
Qed.

Lemma file_step_total {A} code (k : string -> M W A) st :
  model_answers remote ->
  exists c1 c2 s2,
    bind (analyze_code remote code)
         (fun issues => bind (remediate_code remote code issues) k) st
    = k (clean_remediation (completion_of c2)) (after_file st code c1 c2 s2).
Proof.
  intros Hm.
  destruct (Hm (analysis_call code) (server st)) as (c1 & s1 & H1).
  destruct (Hm (remediation_call code (issues_found c1)) s1) as (c2 & s2 & H2).
  exists c1, c2, s2.
  unfold bind, analyze_code, remediate_code, bedrock_invoke_model, ret, bind.
  fold (analysis_call code). rewrite H1. cbn [server log].
  fold (issues_found c1). fold (remediation_call code (issues_found c1)).
  rewrite H2. unfold after_file. now rewrite <- app_assoc.
Qed.

(** What a run of the loop that returns has done. *)
Lemma remediate_items_ok exts items : forall acc st files st',
  remediate_items remote items (PList exts) acc st = (Ok files, st') ->
  (forall p, In p (keys files) <->
             In p (keys acc) \/ (In p (keys items) /\ kept exts p = true))
  /\ (NoDup (keys acc ++ keys items) ->
      keys files = keys acc ++ filter (kept exts) (keys items))
  /\ exists made, log st' = log st ++ made
     /\ forall p code, In (p, code) items -> kept exts p = true ->
          exists c1 c2 before after,
            made = before
                   ++ [Invoke (analysis_call code) (inr c1);
                       Invoke (remediation_call code (issues_found c1))
                              (inr c2)]
                   ++ after.
Proof.
  induction items as [| [p0 code0] rest IH]; intros acc st files st' Hrun.
  - cbn in Hrun. inversion Hrun; subst. split; [ | split].
    + cbn. intuition.
    + intros _. cbn. now rewrite app_nil_r.
    + exists []. rewrite app_nil_r. split; [reflexivity | ]. intros p c [].
  - cbn [remediate_items] in Hrun. unfold bind at 1 in Hrun.
    cbn [py_iter lift] in Hrun. unfold kept in *.
    destruct (is_non_code p0 exts) eqn:Hskip.
    + apply IH in Hrun as (Hkeys & Heq & made & Hlog & Hmade).
      split; [ | split].
      * intros p. rewrite Hkeys. cbn. split; [intuition | ].
        intros [Hin | [[<- | Hin] Hk]]; auto.
        rewrite Hskip in Hk. discriminate.
      * intros Hnd. cbn. rewrite Hskip. cbn. apply Heq.
        cbn in Hnd. now apply NoDup_remove_1 in Hnd.
      * exists made. split; [assumption | ].
        intros p c [Hhd | Hin] Hk; [ | eauto].
        inversion Hhd; subst. rewrite Hskip in Hk. discriminate.
    + apply file_step in Hrun as (c1 & s1 & c2 & s2 & _ & _ & Hrun).
      apply IH in Hrun as (Hkeys & Heq & made & Hlog & Hmade).
      split; [ | split].
      * intros p. rewrite Hkeys, keys_dict_set. cbn. split.
        -- intros [[-> | Hin] | [Hin Hk]]; auto.
           right. rewrite Hskip. auto.
        -- intros [Hin | [[<- | Hin] Hk]]; auto.
      * intros Hnd. cbn. rewrite Hskip. cbn.
        cbn in Hnd. pose proof (NoDup_remove_2 _ _ _ Hnd) as Hfresh.
        rewrite Heq.
        -- rewrite keys_dict_set_fresh.
           ++ now rewrite <- app_assoc.
           ++ intros Hin. apply Hfresh. apply in_or_app. now left.
        -- rewrite keys_dict_set_fresh.
           ++ rewrite <- app_assoc. exact Hnd.
           ++ intros Hin. apply Hfresh. apply in_or_app. now left.
      * unfold after_file in Hlog. cbn [log] in Hlog.
        rewrite <- app_assoc in Hlog.
        eexists. split; [exact Hlog | ].
        intros p c [Hhd | Hin] Hk.
        -- inversion Hhd; subst. exists c1, c2, [], made. reflexivity.
        -- destruct (Hmade p c Hin Hk) as (d1 & d2 & before & after & ->).
           exists d1, d2.
           exists ([Invoke (analysis_call code0) (inr c1);
                    Invoke (remediation_call code0 (issues_found c1)) (inr c2)]
                   ++ before), after.
           now rewrite <- app_assoc.
Qed.

(** The loop returns when the model answers every call. *)
Lemma remediate_items_total exts items : forall acc st,
  model_answers remote ->
  exists files st', remediate_items remote items (PList exts) acc st
                    = (Ok files, st').
Proof.
  induction items as [| [p0 code0] rest IH]; intros acc st Hm.
  - cbn. unfold ret. eauto.
  - cbn [remediate_items]. unfold bind at 1. cbn [py_iter lift].
    destruct (is_non_code p0 exts); [now apply IH | ].
    destruct (file_step_total code0
                (fun remediated_code =>
                   remediate_items remote rest (PList exts)
                     (dict_set acc p0 remediated_code)) st Hm)
      as (c1 & c2 & s2 & ->).
    now apply IH.
Qed.

End Analyzer.

(** C4.  For a FileMap (distinct keys) and a list of excluded extensions,
    the map that analyze_and_remediate_code returns has as keys exactly
    the FileMap keys that end with no excluded extension, in their order;
    and it does return a map when the model answers every call. *)
Theorem C4_remediation_map_keys W (remote : Remote W) code_repo exts st :
  NoDup (keys code_repo) ->
  (forall files st',
      analyze_and_remediate_code remote code_repo (PList exts) st
      = (Ok files, st') ->
      keys files = filter (kept exts) (keys code_repo))
  /\ (model_answers remote ->
      exists files st',
        analyze_and_remediate_code remote code_repo (PList exts) st
        = (Ok files, st')).
Proof.
  intros Hnd. split.
  - intros files st' Hrun. unfold analyze_and_remediate_code in Hrun.
    apply remediate_items_ok in Hrun as (_ & Heq & _).
    now apply Heq.
  - intros Hm. now apply remediate_items_total.
Qed.

Lemma mock_model_answers cfg : model_answers (Mock.remote cfg).
Proof.
  intros m n. cbn. unfold Mock.answer_model.
  destruct (String.prefix _ _); eauto.
Qed.

(** C4, witness: the scenario of the specification. *)
Lemma C4_remediation_map_keys_witness :
  exists files st',
    analyze_and_remediate_code (Mock.remote Mock.healthy)
      [("a.py", "print(1)"); ("README.md", "hi")] (PList [".md"]) Mock.start
    = (Ok files, st')
    /\ keys files = ["a.py"].
Proof.
  assert (Hnd : NoDup (keys [("a.py", "print(1)"); ("README.md", "hi")])).
  { repeat constructor; cbn; intuition discriminate. }
  destruct (@C4_remediation_map_keys nat (Mock.remote Mock.healthy)
              [("a.py", "print(1)"); ("README.md", "hi")] [".md"]
              Mock.start Hnd) as [Hkeys Hreturns].
  destruct (Hreturns (mock_model_answers Mock.healthy)) as (files & st' & Hrun).
  exists files, st'. split; [exact Hrun | ].
  rewrite (Hkeys files st' Hrun). reflexivity.
Defined.

(** C8.  When the model answers, every file that is not excluded gets an
    entry in the returned map, and its analysis call is followed at once
    by a remediation call carrying whatever issues were extracted from
    the analysis, an empty list included. *)
Theorem C8_remediation_unconditional W (remote : Remote W) code_repo exts st :
  model_answers remote ->
  exists files st' made,
    analyze_and_remediate_code remote code_repo (PList exts) st
    = (Ok files, st')
    /\ log st' = log st ++ made
    /\ forall p code, In (p, code) code_repo -> is_non_code p exts = false ->
         In p (keys files)
         /\ exists c1 c2 before after,
              made = before
                     ++ [Invoke (analysis_call code) (inr c1);
                         Invoke (remediation_call code (issues_found c1))
                                (inr c2)]
                     ++ after.
Proof.
  intros Hm. unfold analyze_and_remediate_code.
  destruct (remediate_items_total exts code_repo [] st Hm)
    as (files & st' & Hrun).
  destruct (remediate_items_ok _ _ _ _ _ Hrun)
    as (Hkeys & _ & made & Hlog & Hmade).
  exists files, st', made. split; [exact Hrun | split; [exact Hlog | ]].
  intros p code Hin Hkeep. split.
  - apply Hkeys. right. split.
    + change p with (fst (p, code)). now apply in_map.
    + unfold kept. now rewrite Hkeep.
  - apply (Hmade p code Hin). unfold kept. now rewrite Hkeep.
Qed.

(** C8, witness: the mock model reports no issue for "a.py"; the
    remediation call is made all the same, with no issue listed. *)
Lemma C8_remediation_unconditional_witness :
  issues_found (Some " Nothing stands out. ") = []
  /\ exists files st' made,
       analyze_and_remediate_code (Mock.remote Mock.healthy)
         [("a.py", "print(1)"); ("README.md", "hi")] (PList [".md"]) Mock.start
       = (Ok files, st')
       /\ log st' = log Mock.start ++ made
       /\ forall p code,
            In (p, code) [("a.py", "print(1)"); ("README.md", "hi")] ->
            is_non_code p [".md"] = false ->
            In p (keys files)
            /\ exists c1 c2 before after,
                 made = before
                        ++ [Invoke (analysis_call code) (inr c1);
                            Invoke (remediation_call code (issues_found c1))
                                   (inr c2)]
                        ++ after.
Proof.
  split; [reflexivity | ].
  exact (@C8_remediation_unconditional nat (Mock.remote Mock.healthy)
           [("a.py", "print(1)"); ("README.md", "hi")] [".md"] Mock.start
           (mock_model_answers Mock.healthy)).
Defined.

(** C10.  The exclusion is plain suffix matching on the whole path: when
    the model answers, the map is returned and a path of the FileMap is
    left out of it exactly when the path is some string followed by the
    characters of an exclusion entry (no dot is looked for, and the entry
    may reach across a directory separator). *)
Theorem C10_exclusion_is_raw_suffix W (remote : Remote W) code_repo exts st :
  model_answers remote ->
  exists files st',
    analyze_and_remediate_code remote code_repo (PList exts) st
    = (Ok files, st')
    /\ forall p, In p (keys code_repo) ->
         (~ In p (keys files)
          <-> exists e pre, In e exts /\ p = (pre ++ e)%string).
Proof.
  intros Hm. unfold analyze_and_remediate_code.
  destruct (remediate_items_total exts code_repo [] st Hm)
    as (files & st' & Hrun).
  exists files, st'. split; [exact Hrun | ]. intros p Hp.
  apply remediate_items_ok in Hrun as (Hkeys & _ & _).
  rewrite <- is_non_code_spec, Hkeys. unfold kept. cbn.
  destruct (is_non_code p exts); cbn; split; intros H; try reflexivity.
  - intros [[] | [_ Hk]]. discriminate.
  - exfalso. apply H. auto.
  - discriminate.
Qed.

(** C10, witness: the entry "py" has no dot, and drops "happy"; the
    entry "s/notes" reaches across a directory separator. *)
Lemma C10_exclusion_is_raw_suffix_witness :
  exists files st',
    analyze_and_remediate_code (Mock.remote Mock.healthy)
      [("happy", "x"); ("docs/notes", "y"); ("a.c", "z")]
      (PList ["py"; "s/notes"]) Mock.start
    = (Ok files, st')
    /\ forall p, In p ["happy"; "docs/notes"; "a.c"] ->
         (~ In p (keys files)
          <-> exists e pre, In e ["py"; "s/notes"] /\ p = (pre ++ e)%string).
Proof.
  exact (@C10_exclusion_is_raw_suffix nat (Mock.remote Mock.healthy)
           [("happy", "x"); ("docs/notes", "y"); ("a.c", "z")]
           ["py"; "s/notes"] Mock.start (mock_model_answers Mock.healthy)).
Defined.

Example suffix_mock_files :
  fst (analyze_and_remediate_code (Mock.remote Mock.healthy)
         [("happy", "x"); ("docs/notes", "y"); ("a.c", "z")]
         (PList ["py"; "s/notes"]) Mock.start)
  = Ok [("a.c", "print(1)")].
Proof. vm_compute. reflexivity. Qed.

Example suffix_without_dot :
  Py.endswith "happy" "py" = true /\ Py.endswith "src/a.py" "/a.py" = true
  /\ Py.endswith "a.py" ".PY" = false.
Proof. repeat split; reflexivity. Qed.

(* ------------------------------------------------------------------ *)
(** ** Post-processing of a remediation *)

Unset Implicit Arguments.


Lemma prefix_cons a p b s :
  String.prefix (String a p) (String b s) = Ascii.eqb a b && String.prefix p s.
Proof.
  cbn. destruct (ascii_dec a b) as [-> | Hne].
  - now rewrite Ascii.eqb_refl.
  - apply Ascii.eqb_neq in Hne. now rewrite Hne.
Qed.

Lemma prefix_app sub : forall a t,
  String.prefix sub a = true -> String.prefix sub (a ++ t)%string = true.
Proof.
  induction sub as [| c sub IH]; intros a t H.
  - now destruct (a ++ t)%string.
  - destruct a as [| b a]; [discriminate | ].
    cbn [String.append]. rewrite prefix_cons in *.
    apply andb_true_iff in H as [-> H]. cbn. now apply IH.
Qed.

Lemma contains_cons c s sub :
  Py.contains (String c s) sub
  = String.prefix sub (String c s) || Py.contains s sub.
Proof. cbn [Py.contains]. now destruct (String.prefix sub (String c s)). Qed.

Lemma contains_app a : forall t sub,
  Py.contains a sub = true -> Py.contains (a ++ t)%string sub = true.
Proof.
  induction a as [| c a IH]; intros t sub H.
  - destruct sub; [ | discriminate]. now destruct t.
  - cbn [String.append]. rewrite contains_cons in *.
    apply orb_true_iff in H as [H | H].
    + change (String c (a ++ t))%string with (String c a ++ t)%string.
      now rewrite prefix_app.
    + rewrite (IH _ _ H). apply orb_true_r.
Qed.

Lemma lstrip_keeps_out p sub s :
  Py.contains s sub = false -> Py.contains (Py.lstrip_by p s) sub = false.
Proof.
  induction s as [| c s IH]; intros H; [exact H | ].
  cbn [Py.lstrip_by]. destruct (p c); [ | exact H].
  apply IH. rewrite contains_cons in H. now apply orb_false_iff in H.
Qed.

Lemma rstrip_is_prefix p s : exists t, s = (Py.rstrip_by p s ++ t)%string.
Proof.
  induction s as [| c s [t IH]]; [now exists "" | ].
  cbn [Py.rstrip_by]. destruct (Py.rstrip_by p s) as [| c' r] eqn:Hr.
  - destruct (p c).
    + now exists (String c s).
    + exists s. reflexivity.
  - exists t. cbn [String.append] in *. now rewrite <- IH.
Qed.

Lemma rstrip_keeps_out p sub s :
  Py.contains s sub = false -> Py.contains (Py.rstrip_by p s) sub = false.
Proof.
  intros H. destruct (Py.contains (Py.rstrip_by p s) sub) eqn:Hc; [ | reflexivity].
  destruct (rstrip_is_prefix p s) as [t Ht].
  apply (contains_app _ t) in Hc. rewrite <- Ht in Hc. congruence.
Qed.

Lemma strip_keeps_out sub s :
  Py.contains s sub = false -> Py.contains (Py.strip s) sub = false.
Proof.
  intros H. unfold Py.strip, Py.strip_by.
  now apply rstrip_keeps_out, lstrip_keeps_out.
Qed.

Lemma remove_absent old s :
  Py.contains s old = false -> Py.remove_all old s = s.
Proof.
  unfold Py.remove_all. induction s as [| c s IH]; intros H; [reflexivity | ].
  rewrite contains_cons in H. apply orb_false_iff in H as [Hp Hs].
  cbn [Py.remove_go]. rewrite Hp. now rewrite IH.
Qed.

(** The fence pass. *)
Lemma sub_fence_go_plain c s' :
  Py.fence_at c s' = false ->
  Py.sub_fence_go false (String c s') = String c (Py.sub_fence_go false s').
Proof.
  intros H. cbn [Py.sub_fence_go andb]. unfold Py.fence_at in H.
  destruct s' as [| c2 [| c3 rest]]; try reflexivity. now rewrite H.
Qed.

Lemma sub_fence_go_fence c c2 c3 rest :
  Py.fence_at c (String c2 (String c3 rest)) = true ->
  Py.sub_fence_go false (String c (String c2 (String c3 rest)))
  = Py.sub_fence_go true rest.
Proof.
  intros H. cbn [Py.sub_fence_go andb]. unfold Py.fence_at in H. now rewrite H.
Qed.

Lemma sub_fence_go_tag s :
  Py.sub_fence_go true s = Py.sub_fence_go false (Py.lstrip_by Py.is_lower s).
Proof.
  induction s as [| c s IH]; [reflexivity | ].
  cbn [Py.lstrip_by]. destruct (Py.is_lower c) eqn:Hl.
  - rewrite <- IH. cbn [Py.sub_fence_go andb]. now rewrite Hl.
  - cbn [Py.sub_fence_go andb]. now rewrite Hl.
Qed.

Lemma lstrip_length p s : (String.length (Py.lstrip_by p s) <= String.length s)%nat.
Proof.
  induction s as [| c s IH]; cbn; [lia | ]. destruct (p c); cbn; lia.
Qed.

Lemma sub_fence_go_head s :
  starts_tick s = false -> starts_tick (Py.sub_fence_go false s) = false.
Proof.
  destruct s as [| c s']; [reflexivity | ]. cbn [starts_tick]. intros Hc.
  rewrite sub_fence_go_plain; [exact Hc | ].
  unfold Py.fence_at. destruct s' as [| c2 [| c3 rest]]; try reflexivity.
  now rewrite Hc.
Qed.

Lemma prefix_two_ticks s :
  String.prefix "``" s
  = match s with
    | String c s' => Py.is_tick c && starts_tick s'
    | EmptyString => false
    end.
Proof.
  destruct s as [| c s']; [reflexivity | ].
  rewrite prefix_cons. unfold Py.is_tick. rewrite (Ascii.eqb_sym c).
  destruct (Ascii.eqb "`" c); [ | reflexivity]. cbn [andb].
  destruct s' as [| c2 s'']; [reflexivity | ].
  rewrite prefix_cons. cbn [starts_tick]. unfold Py.is_tick.
  rewrite (Ascii.eqb_sym c2). destruct (Ascii.eqb "`" c2); [ | reflexivity].
  now destruct s''.
Qed.

(** After a backtick that starts no fence, the pass puts out at most one
    more backtick in a row. *)
Lemma sub_fence_go_after_tick c s' :
  Py.is_tick c = true -> Py.fence_at c s' = false ->
  String.prefix "``" (Py.sub_fence_go false s') = false.
Proof.
  intros Hc Hf. rewrite prefix_two_ticks.
  destruct s' as [| c2 s'']; [reflexivity | ].
  destruct (Py.is_tick c2) eqn:Hc2.
  - (* the second backtick is followed by something else *)
    assert (Hnext : starts_tick s'' = false).
    { destruct s'' as [| c3 rest]; [reflexivity | ].
      cbn [Py.fence_at starts_tick] in *. now rewrite Hc, Hc2 in Hf. }
    rewrite sub_fence_go_plain.
    + rewrite Hc2. cbn [andb]. now apply sub_fence_go_head.
    + unfold Py.fence_at. destruct s'' as [| c3 [| c4 rest]]; try reflexivity.
      cbn [starts_tick] in Hnext. now rewrite Hnext, andb_false_r.
  - rewrite sub_fence_go_plain.
    + now rewrite Hc2.
    + unfold Py.fence_at. destruct s'' as [| c3 [| c4 rest]]; try reflexivity.
      now rewrite Hc2.
Qed.

(** The fence pass leaves no three backticks in a row. *)
Lemma sub_fence_go_clean n : forall s,
  (String.length s <= n)%nat ->
  Py.contains (Py.sub_fence_go false s) fence = false.
Proof.
  induction n as [| n IH]; intros s Hlen.
  - destruct s; [reflexivity | cbn in Hlen; lia].
  - destruct s as [| c s']; [reflexivity | ]. cbn [String.length] in Hlen.
    destruct (Py.fence_at c s') eqn:Hf.
    + destruct s' as [| c2 [| c3 rest]]; try discriminate.
      rewrite (sub_fence_go_fence _ _ _ _ Hf), sub_fence_go_tag.
      apply IH. pose proof (lstrip_length Py.is_lower rest).
      cbn [String.length] in Hlen. lia.
    + rewrite (sub_fence_go_plain _ _ Hf), contains_cons.
      rewrite IH by lia. rewrite orb_false_r.
      unfold fence. rewrite prefix_cons.
      destruct (Py.is_tick c) eqn:Hc.
      * rewrite (sub_fence_go_after_tick _ _ Hc Hf). apply andb_false_r.
      * unfold Py.is_tick in Hc. rewrite Ascii.eqb_sym in Hc. now rewrite Hc.
Qed.

Lemma sub_fence_clean s : Py.contains (Py.sub_fence s) fence = false.
Proof. unfold Py.sub_fence. now apply (sub_fence_go_clean (String.length s)). Qed.

(** X17.  When the text left by the fence pass holds no preamble, what
    remediate_code returns holds no fence. *)
Lemma clean_remediation_without_preamble completion :
  Py.contains (Py.strip (Py.sub_fence (Py.strip completion))) preamble = false ->
  Py.contains (clean_remediation completion) fence = false.
Proof.
  intros Hp. unfold clean_remediation. rewrite (remove_absent _ _ Hp).
  now apply strip_keeps_out, strip_keeps_out, sub_fence_clean.
Qed.

Set Implicit Arguments.

(** C7 (defect in the code).  The specification says the text remediate_code
    returns never contains a code fence or the preamble.  The preamble is
    removed after the fences, in one pass: removing it can bring three
    backticks together, or bring the two halves of another preamble
    together, and the result is returned as it is. *)
Theorem C7_fence_and_preamble_survive :
  fst (remediate_code (Mock.remote Mock.fenced) "print(1)" [] Mock.start)
  = Ok "```"
  /\ fst (remediate_code (Mock.remote Mock.nested) "print(1)" [] Mock.start)
     = Ok preamble.
Proof. split; vm_compute; reflexivity. Qed.

(* ------------------------------------------------------------------ *)
(** ** The content fetcher *)

Lemma keys_dict_update (d other : dict) (p : string) :
  In p (keys (dict_update d other)) <-> In p (keys d) \/ In p (keys other).
Proof.
  unfold dict_update. revert d.
  induction other as [| [k v] other IH]; intros d; cbn.
  - intuition.
  - rewrite IH, keys_dict_set. intuition.
Qed.

Section FetcherSpec.

Variable listing : string -> list Item.
Variable names : list string.

Lemma skips_folder_list item :
  skips_folder (PList names) item = excluded_name names item.
Proof.
  unfold skips_folder, excluded_name. destruct names; reflexivity.
Qed.

Lemma Descends_trans a b c :
  Descends listing names a b -> Descends listing names b c ->
  Descends listing names a c.
Proof.
  induction 1 as [| d item d' Hin Hent _ IH]; intros Hbc; [assumption | ].
  eapply Descends_into; eauto.
Qed.

Lemma Fetched_unfold root p :
  Fetched listing names root p <->
  exists item, In item (listing root)
    /\ ((i_type item = "file" /\ i_path item = p)
        \/ (entered names item = true
            /\ Fetched listing names (i_path item) p)).
Proof.
  split.
  - intros (d & item & Hd & Hin & Hty & Hp).
    inversion Hd as [| d0 item0 d' Hin0 Hent0 Hrest]; subst.
    + exists item. auto.
    + exists item0. split; [assumption | ]. right. split; [assumption | ].
      exists d, item. auto.
  - intros (item & Hin & [[Hty Hp] | [Hent (d & f & Hd & Hf & Hty & Hp)]]).
    + exists root, item. repeat split; auto. constructor.
    + exists d, f. repeat split; auto. eapply Descends_into; eauto.
Qed.

Variable W : Type.
Variable remote : Remote W.
Variable urlparse_path : string -> Res string.
Variables (repo_link branch : option string) (repo_path : string).
Variable root : string.

Hypothesis repo_path_known :
  repo_path_of urlparse_path repo_link = Ok repo_path.

(** Every directory the descent reaches is listed with success. *)
Hypothesis listings_succeed :
  forall d, Descends listing names root d -> forall s,
    exists resp s',
      send remote (GET (contents_url repo_path d branch)) s = (inr resp, s')
      /\ http_error_msg resp = None
      /\ json_items resp = listing d.

(** Every download of a file the descent meets is answered. *)
Hypothesis downloads_answered :
  forall d item, Descends listing names root d -> In item (listing d) ->
    i_type item = "file" -> forall s,
    exists resp s', send remote (GET (i_download_url item)) s = (inr resp, s').

Lemma fetch_items_spec (descend : string -> M W dict) d items :
  Descends listing names root d ->
  (forall item, In item items -> In item (listing d)) ->
  (forall item, In item items -> entered names item = true -> forall st,
     exists sub st', descend (i_path item) st = (Ok sub, st')
       /\ forall p, In p (keys sub)
                    <-> Fetched listing names (i_path item) p) ->
  forall files st,
  exists files' st',
    fetch_items remote descend (PList names) items files st = (Ok files', st')
    /\ forall p, In p (keys files') <->
         In p (keys files)
         \/ exists item, In item items
              /\ ((i_type item = "file" /\ i_path item = p)
                  \/ (entered names item = true
                      /\ Fetched listing names (i_path item) p)).
Proof.
  intros Hd. induction items as [| item rest IH]; intros Hsub Hdesc files st.
  - exists files, st. split; [reflexivity | ].
    intros p. split; [auto | ]. intros [H | (item & [] & _)]. exact H.
  - assert (Hsub' : forall it, In it rest -> In it (listing d))
      by (intros; apply Hsub; now right).
    assert (Hdesc' : forall it, In it rest -> entered names it = true -> forall st,
               exists sub st', descend (i_path it) st = (Ok sub, st')
                 /\ forall p, In p (keys sub) <-> Fetched listing names (i_path it) p)
      by (intros; apply Hdesc; auto; now right).
    specialize (IH Hsub' Hdesc').
    cbn [fetch_items]. rewrite skips_folder_list.
    destruct (String.eqb (i_type item) "dir") eqn:Hdir.
    + destruct (excluded_name names item) eqn:Hex.
      * destruct (IH files st) as (files' & st' & Hrun & Hkeys).
        exists files', st'. split; [exact Hrun | ].
        intros p. rewrite Hkeys. split.
        -- intros [H | (it & Hit & Hcase)]; [now left | ].
           right. exists it. split; [now right | exact Hcase].
        -- intros [H | (it & [<- | Hit] & Hcase)]; [now left | | ].
           ++ exfalso. destruct Hcase as [[Hty _] | [Hent _]].
              ** apply String.eqb_eq in Hdir. rewrite Hdir in Hty. discriminate.
              ** unfold entered in Hent. rewrite Hex, andb_false_r in Hent.
                 discriminate.
           ++ right. eauto.
      * assert (Hent : entered names item = true)
          by (unfold entered; now rewrite Hdir, Hex).
        destruct (Hdesc item (or_introl eq_refl) Hent st)
          as (sub & st1 & Hsubrun & Hsubkeys).
        unfold bind at 1. rewrite Hsubrun.
        destruct (IH (dict_update files sub) st1) as (files' & st' & Hrun & Hkeys).
        exists files', st'. split; [exact Hrun | ].
        intros p. rewrite Hkeys, keys_dict_update, Hsubkeys. split.
        -- intros [[H | H] | (it & Hit & Hcase)]; [now left | | ].
           ++ right. exists item. split; [now left | ]. right. auto.
           ++ right. exists it. split; [now right | exact Hcase].
        -- intros [H | (it & [<- | Hit] & Hcase)]; [now left; left | | ].
           ++ destruct Hcase as [[Hty _] | [_ Hf]].
              ** apply String.eqb_eq in Hdir. rewrite Hdir in Hty. discriminate.
              ** left. now right.
           ++ right. eauto.
    + assert (Hnot : entered names item = false)
        by (unfold entered; now rewrite Hdir).
      destruct (String.eqb (i_type item) "file") eqn:Hfile.
      * apply String.eqb_eq in Hfile.
        destruct (@downloads_answered d item Hd (Hsub item (or_introl eq_refl)) Hfile
                    (server st)) as (resp & s' & Hsend).
        unfold bind at 1, requests at 1. rewrite Hsend.
        match goal with
        | |- context [fetch_items _ _ _ rest ?f ?s] =>
            destruct (IH f s) as (files' & st' & Hrun & Hkeys)
        end.
        exists files', st'. split; [exact Hrun | ].
        intros p. rewrite Hkeys, keys_dict_set. split.
        -- intros [[-> | H] | (it & Hit & Hcase)]; [ | now left | ].
           ++ right. exists item. split; [now left | ]. left. auto.
           ++ right. exists it. split; [now right | exact Hcase].
        -- intros [H | (it & [<- | Hit] & Hcase)]; [now left; right | | ].
           ++ destruct Hcase as [[_ Hp] | [Hent _]].
              ** left. now left.
              ** rewrite Hnot in Hent. discriminate.
           ++ right. eauto.
      * destruct (IH files st) as (files' & st' & Hrun & Hkeys).
        exists files', st'. split; [exact Hrun | ].
        intros p. rewrite Hkeys. split.
        -- intros [H | (it & Hit & Hcase)]; [now left | ].
           right. exists it. split; [now right | exact Hcase].
        -- intros [H | (it & [<- | Hit] & Hcase)]; [now left | | ].
           ++ exfalso. destruct Hcase as [[Hty _] | [Hent _]].
              ** apply String.eqb_neq in Hfile. contradiction.
              ** rewrite Hnot in Hent. discriminate.
           ++ right. eauto.
Qed.

Lemma fetch_from fuel : forall d st,
  Descends listing names root d -> shallow listing names fuel d = true ->
  exists files st',
    fetch_repository_contents remote urlparse_path fuel repo_link branch d
      (PList names) st = (Ok files, st')
    /\ forall p, In p (keys files) <-> Fetched listing names d p.
Proof.
  induction fuel as [| fuel IH]; intros d st Hd Hdepth; [discriminate | ].
  cbn [fetch_repository_contents].
  unfold bind at 1, lift at 1. rewrite repo_path_known.
  destruct (@listings_succeed d Hd (server st)) as (resp & s' & Hsend & Hok & Hitems).
  unfold bind at 1, requests at 1. rewrite Hsend.
  unfold bind at 1, raise_for_status. rewrite Hok. unfold ret at 1.
  rewrite Hitems.
  cbn [shallow] in Hdepth. rewrite forallb_forall in Hdepth.
  match goal with
  | |- context [fetch_items _ ?descend _ _ _ ?s] =>
      destruct (@fetch_items_spec descend d (listing d) Hd (fun _ H => H)) with
        (files := @nil (string * string)) (st := s)
        as (files & st' & Hrun & Hkeys)
  end.
  - intros item Hin Hent st0. apply IH.
    + eapply Descends_trans; [exact Hd | ].
      eapply Descends_into; eauto. constructor.
    + specialize (Hdepth item Hin). rewrite Hent in Hdepth. exact Hdepth.
  - exists files, st'. split; [exact Hrun | ].
    intros p. rewrite Hkeys, Fetched_unfold. cbn. intuition.
Qed.

End FetcherSpec.

Ltac descend :=
  match goal with
  | H : Descends _ _ _ _ |- _ =>
      let Hin := fresh "Hin" in
      let Hent := fresh "Hent" in
      inversion H as [| ? ? ? Hin Hent ?]; subst; clear H;
      [ cbn; auto 10
      | vm_compute in Hin;
        repeat (destruct Hin as [Hin | Hin]; [subst | ]);
        try contradiction; vm_compute in Hent; try discriminate;
        cbn [i_path] in * ]
  end.

Lemma mock_descent d :
  Descends Mock.listing ["node_modules"] "" d -> In d [""; "src"; "src/lib"].
Proof. intros H. repeat descend. Qed.

Example fetch_mock_files :
  fst (fetch_repository_contents (Mock.remote Mock.healthy) Mock.urlparse_path 5
         (Some Mock.repo_link) (Some "main") "" (PList ["node_modules"])
         Mock.start)
  = Ok [("src/b.py", "# src/b.py"); ("src/lib/c.py", "# src/lib/c.py");
        ("a.py", "# a.py"); ("README.md", "# README.md")].
Proof. vm_compute. reflexivity. Qed.

Section FetchFailures.

Variable W : Type.
Variable remote : Remote W.
Variable urlparse_path : string -> Res string.

(** X9.  A listing answered with an error status aborts the fetch. *)
Lemma fetch_aborts_on_failed_listing fuel repo_link branch path
    exclude_folders repo_path st resp s' msg :
  repo_path_of urlparse_path repo_link = Ok repo_path ->
  send remote (GET (contents_url repo_path path branch)) (server st)
  = (inr resp, s') ->
  http_error_msg resp = Some msg ->
  fst (fetch_repository_contents remote urlparse_path (S fuel) repo_link
         branch path exclude_folders st)
  = Raise (HTTPError msg).
Proof.
  intros Hrp Hsend Hmsg. cbn [fetch_repository_contents].
  unfold bind at 1, lift at 1. rewrite Hrp.
  unfold bind at 1, requests at 1. rewrite Hsend.
  unfold bind at 1, raise_for_status. rewrite Hmsg. reflexivity.
Qed.

End FetchFailures.

(** C6 (defect in the code).  The specification says a download answered with a
    non-success status aborts the fetch.  The status of a listing is
    checked, the status of a download is not: here the download of
    "src/lib/c.py" is answered 404 and the fetch returns a FileMap that
    holds the body of the error page as the content of the file. *)
Theorem C6_failed_download_is_kept :
  exists resp st',
    fetch_repository_contents (Mock.remote Mock.broken_download)
      Mock.urlparse_path 5 (Some Mock.repo_link) (Some "main") "src/lib"
      PNone Mock.start
    = (Ok [("src/lib/c.py", "404: Not Found")], st')
    /\ In (Http (GET "https://raw.example/octo/demo/main/src/lib/c.py")
                (inr resp)) (log st')
    /\ status_code resp = 404%Z.
Proof.
  eexists. eexists. split; [vm_compute; reflexivity | ].
  split; [right; left; reflexivity | reflexivity].
Qed.

(* ------------------------------------------------------------------ *)
(** ** The branch publisher *)

Section Publisher.

Variable W : Type.
Variable remote : Remote W.
Variable urlparse_path : string -> Res string.

Lemma create_blobs_ok repo_path items : forall acc st entries st',
  create_blobs remote repo_path items acc st = (Ok entries, st') ->
  exists blobs,
    length blobs = length items
    /\ Forall carries_sha blobs
    /\ entries = acc ++ map blob_entry (combine items blobs)
    /\ log st' = log st ++ map (blob_exchange repo_path) (combine items blobs).
Proof.
  induction items as [| [file_path code] rest IH]; intros acc st entries st' Hrun.
  - cbn in Hrun. inversion Hrun; subst. exists [].
    cbn. now rewrite !app_nil_r.
  - cbn [create_blobs] in Hrun.
    unfold bind at 1, requests at 1 in Hrun.
    destruct (send remote _ (server st)) as [[msg | resp] s1]; [discriminate | ].
    unfold bind at 1, sha_of at 1 in Hrun.
    destruct (json_sha resp) as [blob_sha |] eqn:Hsha; [ | discriminate].
    unfold ret at 1 in Hrun.
    apply IH in Hrun as (blobs & Hlen & Hall & Hentries & Hlog).
    exists ((resp, blob_sha) :: blobs). cbn [length combine map].
    split; [now rewrite Hlen | ]. split; [constructor; [exact Hsha | exact Hall] | ].
    cbn [log] in Hlog. rewrite <- !app_assoc in Hentries, Hlog.
    split; [exact Hentries | exact Hlog].
Qed.

(** C3.  When the check for the new branch name is answered with status
    200 (the ref exists), create_new_branch raises, and what it has sent
    by then holds no write: no ref, blob, tree or commit was created and
    no ref was updated. *)
Theorem C3_existing_branch_is_refused event st :
  (forall repo_path s resp s',
      repo_path_of urlparse_path (repository_link event) = Ok repo_path ->
      send remote (GET (ref_url repo_path (new_branch_name event))) s
      = (inr resp, s') ->
      status_code resp = 200%Z) ->
  exists e st' made,
    create_new_branch remote urlparse_path event st = (Raise e, st')
    /\ log st' = log st ++ made
    /\ Forall (fun x => is_write x = false) made.
Proof.
  intros Hexists. unfold create_new_branch.
  unfold bind at 1, lift at 1.
  destruct (repo_path_of urlparse_path (repository_link event))
    as [repo_path | e] eqn:Hrp.
  2:{ exists e, st, []. rewrite app_nil_r. repeat split. constructor. }
  unfold bind at 1, requests at 1.
  destruct (send remote _ (server st)) as [[msg | r_base] s1] eqn:Hbase.
  { eexists. eexists. eexists. split; [reflexivity | ].
    cbn [log]. split; [reflexivity | ]. repeat constructor. }
  unfold bind at 1, sha_of at 1.
  destruct (json_sha r_base) as [base_commit |].
  2:{ eexists. eexists. eexists. split; [reflexivity | ].
      cbn [log]. split; [reflexivity | ]. repeat constructor. }
  unfold ret at 1. unfold bind at 1, requests at 1. cbn [server log].
  destruct (send remote _ s1) as [[msg | r_new] s2] eqn:Hnew.
  { eexists. eexists. eexists. split; [reflexivity | ].
    cbn [log]. rewrite <- app_assoc. split; [reflexivity | ].
    repeat constructor. }
  rewrite (Hexists _ _ _ _ eq_refl Hnew). cbn [Z.eqb Pos.eqb]. unfold raise.
  eexists. eexists. eexists. split; [reflexivity | ].
  cbn [log]. rewrite <- app_assoc. split; [reflexivity | ].
  repeat constructor.
Qed.

(** C9.  A publish that returns has had this conversation with the
    hosting API, in this order: read the base ref (commit C1), check the
    new ref, create the new ref at C1, upload one blob per remediated
    file, read the tree of C1, create a tree with that tree as
    [base_tree] and one entry per remediated file (its path, mode
    100644, its blob), create a commit with the new tree and C1 as only
    parent, and point the new ref at that commit.  It returns the new
    branch name. *)
Theorem C9_commit_on_base event st returned st' :
  create_new_branch remote urlparse_path event st = (Ok returned, st') ->
  exists repo_path r_base C1 r_new r_ref blobs r_tree base_tree
         r_new_tree new_tree r_commit new_commit r_patch,
    returned = new_branch_name event
    /\ json_sha r_base = Some C1
    /\ length blobs = length (remediations event)
    /\ Forall carries_sha blobs
    /\ json_sha r_tree = Some base_tree
    /\ json_sha r_new_tree = Some new_tree
    /\ json_sha r_commit = Some new_commit
    /\ log st' =
       log st
       ++ [Http (GET (ref_url repo_path (base_branch event))) (inr r_base);
           Http (GET (ref_url repo_path (new_branch_name event))) (inr r_new);
           Http (POST (api repo_path "/git/refs")
                   (ref_payload (new_branch_name event) C1)) (inr r_ref)]
       ++ map (blob_exchange repo_path) (combine (remediations event) blobs)
       ++ [Http (GET (api repo_path ("/git/trees/" ++ C1)%string)) (inr r_tree);
           Http (POST (api repo_path "/git/trees")
                   (JObj [("base_tree", JStr base_tree);
                          ("tree",
                           JArr (map blob_entry
                                   (combine (remediations event) blobs)))]))
                (inr r_new_tree);
           Http (POST (api repo_path "/git/commits")
                   (JObj [("message", JStr "Remediated code");
                          ("tree", JStr new_tree);
                          ("parents", JArr [JStr C1])]))
                (inr r_commit);
           Http (PATCH (ref_url repo_path (new_branch_name event))
                   (JObj [("sha", JStr new_commit)]))
                (inr r_patch)].
Proof.
  unfold create_new_branch. intros Hrun.
  unfold bind at 1, lift at 1 in Hrun.
  destruct (repo_path_of urlparse_path (repository_link event))
    as [repo_path | e]; [ | discriminate].
  unfold bind at 1, requests at 1 in Hrun.
  destruct (send remote _ (server st)) as [[msg | r_base] s1]; [discriminate | ].
  unfold bind at 1, sha_of at 1 in Hrun.
  destruct (json_sha r_base) as [C1 |] eqn:Hbase; [ | discriminate].
  unfold ret at 1 in Hrun. cbn [server log] in Hrun.
  unfold bind at 1, requests at 1 in Hrun. cbn [server log] in Hrun.
  destruct (send remote _ s1) as [[msg | r_new] s2]; [discriminate | ].
  destruct (status_code r_new =? 200)%Z; [discriminate | ].
  unfold bind at 1, requests at 1 in Hrun. cbn [server log] in Hrun.
  destruct (send remote _ s2) as [[msg | r_ref] s3]; [discriminate | ].
  unfold bind at 1 in Hrun.
  destruct (create_blobs remote repo_path (remediations event) [] _)
    as [[entries | e] st4] eqn:Hblobs; [ | discriminate].
  apply create_blobs_ok in Hblobs as (blobs & Hlen & Hall & -> & Hlog4).
  cbn [log app] in Hlog4.
  unfold bind at 1, requests at 1 in Hrun.
  destruct (send remote _ (server st4)) as [[msg | r_tree] s5]; [discriminate | ].
  unfold bind at 1, sha_of at 1 in Hrun.
  destruct (json_sha r_tree) as [base_tree |] eqn:Htree; [ | discriminate].
  unfold ret at 1 in Hrun. cbn [server log] in Hrun.
  unfold bind at 1, requests at 1 in Hrun. cbn [server log] in Hrun.
  destruct (send remote _ s5) as [[msg | r_new_tree] s6]; [discriminate | ].
  unfold bind at 1, sha_of at 1 in Hrun.
  destruct (json_sha r_new_tree) as [new_tree |] eqn:Hnew_tree; [ | discriminate].
  unfold ret at 1 in Hrun. cbn [server log] in Hrun.
  unfold bind at 1, requests at 1 in Hrun. cbn [server log] in Hrun.
  destruct (send remote _ s6) as [[msg | r_commit] s7]; [discriminate | ].
  unfold bind at 1, sha_of at 1 in Hrun.
  destruct (json_sha r_commit) as [new_commit |] eqn:Hcommit; [ | discriminate].
  unfold ret at 1 in Hrun. cbn [server log] in Hrun.
  unfold bind at 1, requests at 1 in Hrun. cbn [server log] in Hrun.
  destruct (send remote _ s7) as [[msg | r_patch] s8]; [discriminate | ].
  unfold ret in Hrun. inversion Hrun; subst. clear Hrun.
  exists repo_path, r_base, C1, r_new, r_ref, blobs, r_tree, base_tree,
    r_new_tree, new_tree, r_commit, new_commit, r_patch.
  repeat (split; [solve [auto] | ]).
  cbn [log]. rewrite Hlog4. rewrite <- !app_assoc. reflexivity.
Qed.

End Publisher.

(** C3, witness: branch "fix/1" exists on the mock server. *)
Lemma C3_existing_branch_is_refused_witness :
  exists e st' made,
    create_new_branch (Mock.remote Mock.branch_taken) Mock.urlparse_path
      {| repository_link := Some Mock.repo_link;
         remediations := [("a.py", "print(1)")];
         base_branch := Some "main";
         new_branch_name := Some "fix/1" |} Mock.start
    = (Raise e, st')
    /\ log st' = log Mock.start ++ made
    /\ Forall (fun x => is_write x = false) made.
Proof.
  apply (@C3_existing_branch_is_refused nat (Mock.remote Mock.branch_taken)
           Mock.urlparse_path).
  intros repo_path s resp s' Hrp Hsend.
  vm_compute in Hrp. inversion Hrp; subst. clear Hrp.
  vm_compute in Hsend. inversion Hsend; subst. reflexivity.
Defined.

Example existing_branch_error :
  fst (create_new_branch (Mock.remote Mock.branch_taken) Mock.urlparse_path
         {| repository_link := Some Mock.repo_link;
            remediations := [("a.py", "print(1)")];
            base_branch := Some "main";
            new_branch_name := Some "fix/1" |} Mock.start)
  = Raise (ValueError "Branch fix/1 already exists.").
Proof. vm_compute. reflexivity. Qed.

(** C9, witness: publishing one remediated file from "main" to "fix/1"
    on the mock server. *)
Lemma C9_commit_on_base_witness :
  exists st' repo_path C1 new_tree new_commit r_commit r_patch,
    create_new_branch (Mock.remote Mock.healthy) Mock.urlparse_path
      {| repository_link := Some Mock.repo_link;
         remediations := [("a.py", "print(1)")];
         base_branch := Some "main";
         new_branch_name := Some "fix/1" |} Mock.start
    = (Ok (Some "fix/1"), st')
    /\ In (Http (POST (api repo_path "/git/commits")
                   (JObj [("message", JStr "Remediated code");
                          ("tree", JStr new_tree);
                          ("parents", JArr [JStr C1])]))
                (inr r_commit)) (log st')
    /\ json_sha r_commit = Some new_commit
    /\ In (Http (PATCH (ref_url repo_path (Some "fix/1"))
                   (JObj [("sha", JStr new_commit)]))
                (inr r_patch)) (log st').
Proof.
  set (event := {| repository_link := Some Mock.repo_link;
                   remediations := [("a.py", "print(1)")];
                   base_branch := Some "main";
                   new_branch_name := Some "fix/1" |}).
  set (run := create_new_branch (Mock.remote Mock.healthy) Mock.urlparse_path
                event Mock.start).
  assert (Hrun : run = (Ok (Some "fix/1"), snd run))
    by (vm_compute; reflexivity).
  destruct (C9_commit_on_base _ _ _ _ Hrun)
    as (repo_path & r_base & C1 & r_new & r_ref & blobs & r_tree & base_tree
        & r_new_tree & new_tree & r_commit & new_commit & r_patch
        & _ & _ & _ & _ & _ & _ & Hcommit & Hlog).
  exists (snd run), repo_path, C1, new_tree, new_commit, r_commit, r_patch.
  split; [exact Hrun | ]. rewrite Hlog.
  split; [ | split; [exact Hcommit | ]];
    apply in_or_app; right; apply in_or_app; right;
    apply in_or_app; right; cbn; auto.
Defined.
(* ------------------------------------------------------------------ *)
(** ** What each stage sends *)

Section Effects.

Variable W : Type.
Variable remote : Remote W.
Variable urlparse_path : string -> Res string.

Lemma only_ret {A} P (a : A) : only P (ret (W := W) a).
Proof.
  intros st r st' H. inversion H; subst. exists []. now rewrite app_nil_r.
Qed.

Lemma only_raise {A} P e : only P (raise (W := W) (A := A) e).
Proof.
  intros st r st' H. inversion H; subst. exists []. now rewrite app_nil_r.
Qed.

Lemma only_lift {A} P (x : Res A) : only P (lift (W := W) x).
Proof.
  intros st r st' H. inversion H; subst. exists []. now rewrite app_nil_r.
Qed.

Lemma only_bind {A B} P (m : M W A) (k : A -> M W B) :
  only P m -> (forall a, only P (k a)) -> only P (bind m k).
Proof.
  intros Hm Hk st r st' H. unfold bind in H.
  destruct (m st) as [[a | e] st1] eqn:Hrun.
  - destruct (Hm _ _ _ Hrun) as (made1 & Hlog1 & Hall1).
    destruct (Hk a _ _ _ H) as (made2 & Hlog2 & Hall2).
    exists (made1 ++ made2). rewrite Hlog2, Hlog1, app_assoc.
    split; [reflexivity | ]. rewrite forallb_app, Hall1, Hall2. reflexivity.
  - inversion H; subst. eapply Hm; eauto.
Qed.

Lemma only_requests (P : Exchange -> bool) r :
  (forall answer, P (Http r answer) = true) -> only P (requests remote r).
Proof.
  intros HP st res st' H. unfold requests in H.
  destruct (send remote r (server st)) as [ans s'].
  exists [Http r ans]. cbn. rewrite HP.
  destruct ans; inversion H; subst; auto.
Qed.

Lemma only_invoke (P : Exchange -> bool) m :
  (forall answer, P (Invoke m answer) = true) ->
  only P (bedrock_invoke_model remote m).
Proof.
  intros HP st res st' H. unfold bedrock_invoke_model in H.
  destruct (invoke_model remote m (server st)) as [ans s'].
  exists [Invoke m ans]. cbn. rewrite HP.
  destruct ans; inversion H; subst; auto.
Qed.

Lemma only_fetch_items P (descend : string -> M W dict) exclude_folders items :
  (forall u answer, P (Http (GET u) answer) = true) ->
  (forall p, only P (descend p)) ->
  forall files, only P (fetch_items remote descend exclude_folders items files).
Proof.
  intros HP Hd. induction items as [| item rest IH]; intros files.
  - apply only_ret.
  - cbn [fetch_items].
    destruct (String.eqb (i_type item) "dir").
    + destruct (skips_folder exclude_folders item); [apply IH | ].
      apply only_bind; [apply Hd | intros sub; apply IH].
    + destruct (String.eqb (i_type item) "file"); [ | apply IH].
      apply only_bind; [ | intros r; apply IH].
      apply only_requests. intros answer. apply HP.
Qed.

Lemma only_fetch fuel repo_link branch exclude_folders :
  forall path,
    only is_get (fetch_repository_contents remote urlparse_path fuel
                   repo_link branch path exclude_folders).
Proof.
  induction fuel as [| fuel IH]; intros path.
  - apply only_raise.
  - cbn [fetch_repository_contents].
    apply only_bind; [apply only_lift | intros repo_path].
    apply only_bind; [apply only_requests; reflexivity | intros response].
    apply only_bind.
    + unfold raise_for_status. destruct (http_error_msg response);
        [apply only_raise | apply only_ret].
    + intros _. apply only_fetch_items; [reflexivity | exact IH].
Qed.

(** X5.  The fetcher only reads: whether it returns or raises, it keeps the
    log it finds and every exchange it adds is a GET. *)
Theorem fetch_only_reads fuel repo_link branch path exclude_folders st r st' :
  fetch_repository_contents remote urlparse_path fuel repo_link branch path
    exclude_folders st = (r, st') ->
  exists made, log st' = log st ++ made /\ forallb is_get made = true.
Proof. apply only_fetch. Qed.

Lemma only_remediate_items items non_code_exts : forall acc,
  only is_invoke (remediate_items remote items non_code_exts acc).
Proof.
  induction items as [| [file_path file_content] rest IH]; intros acc.
  - apply only_ret.
  - cbn [remediate_items].
    apply only_bind; [apply only_lift | intros exts].
    destruct (is_non_code file_path exts); [apply IH | ].
    apply only_bind.
    + unfold analyze_code. apply only_bind; [ | intros; apply only_ret].
      apply only_invoke. reflexivity.
    + intros issues. apply only_bind; [ | intros; apply IH].
      unfold remediate_code. apply only_bind; [ | intros; apply only_ret].
      apply only_invoke. reflexivity.
Qed.

Lemma remediate_items_count exts items : forall acc st files st',
  remediate_items remote items (PList exts) acc st = (Ok files, st') ->
  length (log st')
  = length (log st) + 2 * length (filter (kept exts) (keys items)).
Proof.
  induction items as [| [p0 code0] rest IH]; intros acc st files st' Hrun.
  - cbn in Hrun. inversion Hrun; subst. cbn. lia.
  - cbn [remediate_items] in Hrun. unfold bind at 1 in Hrun.
    cbn [py_iter lift] in Hrun. cbn [keys map fst filter]. unfold kept at 1.
    destruct (is_non_code p0 exts) eqn:Hskip; cbn [negb].
    + now apply IH in Hrun.
    + apply file_step in Hrun as (c1 & s1 & c2 & s2 & _ & _ & Hrun).
      apply IH in Hrun. rewrite Hrun. unfold after_file. cbn [log length].
      rewrite length_app. cbn [length]. fold (keys rest). lia.
Qed.

(** X14.  The analyzer talks to the model only, whatever its outcome; and a run
    that returns has made two model calls for each file it kept and none
    for the others. *)
Theorem analyzer_calls code_repo exts st r st' :
  analyze_and_remediate_code remote code_repo (PList exts) st = (r, st') ->
  exists made,
    log st' = log st ++ made
    /\ forallb is_invoke made = true
    /\ (forall files, r = Ok files ->
          length made = 2 * length (filter (kept exts) (keys code_repo))).
Proof.
  intros Hrun. unfold analyze_and_remediate_code in Hrun.
  destruct (only_remediate_items code_repo (PList exts) [] _ Hrun)
    as (made & Hlog & Hall).
  exists made. split; [exact Hlog | split; [exact Hall | ]].
  intros files ->. apply remediate_items_count in Hrun.
  rewrite Hlog, length_app in Hrun. lia.
Qed.

End Effects.

Section FetcherMore.

Variable W : Type.
Variable remote : Remote W.
Variable urlparse_path : string -> Res string.

Lemma skips_folder_falsy v item : truthy v = false -> skips_folder v item = false.
Proof. intros H. unfold skips_folder. now rewrite H. Qed.

Lemma fetch_items_falsy (d1 d2 : string -> M W dict) v1 v2 items :
  truthy v1 = false -> truthy v2 = false ->
  (forall p st, d1 p st = d2 p st) ->
  forall files st,
    fetch_items remote d1 v1 items files st
    = fetch_items remote d2 v2 items files st.
Proof.
  intros H1 H2 Hd. induction items as [| item rest IH]; intros files st.
  - reflexivity.
  - cbn [fetch_items]. rewrite !skips_folder_falsy by assumption.
    destruct (String.eqb (i_type item) "dir").
    + unfold bind. rewrite Hd. destruct (d2 (i_path item) st) as [[sub | e] st1];
        [apply IH | reflexivity].
    + destruct (String.eqb (i_type item) "file"); [ | apply IH].
      unfold bind. destruct (requests remote _ st) as [[r | e] st1];
        [apply IH | reflexivity].
Qed.

Lemma bind_ext {A B} (m : M W A) (k1 k2 : A -> M W B) st :
  (forall a st1, k1 a st1 = k2 a st1) -> bind m k1 st = bind m k2 st.
Proof.
  intros Hk. unfold bind. destruct (m st) as [[a | e] st1]; [apply Hk | reflexivity].
Qed.

Lemma fetch_falsy fuel repo_link branch v1 v2 :
  truthy v1 = false -> truthy v2 = false ->
  forall path st,
    fetch_repository_contents remote urlparse_path fuel repo_link branch path v1 st
    = fetch_repository_contents remote urlparse_path fuel repo_link branch path v2 st.
Proof.
  intros H1 H2. induction fuel as [| fuel IH]; intros path st; [reflexivity | ].
  cbn [fetch_repository_contents].
  apply bind_ext. intros repo_path st0.
  apply bind_ext. intros response st1.
  apply bind_ext. intros _ st2.
  now apply fetch_items_falsy.
Qed.

(** X6.  Leaving [exclude_folders] out ([None]), passing an empty list and
    passing an empty string all fetch the same: nothing is excluded. *)
Theorem fetch_without_exclusions fuel repo_link branch path st :
  fetch_repository_contents remote urlparse_path fuel repo_link branch path
    PNone st
  = fetch_repository_contents remote urlparse_path fuel repo_link branch path
      (PList []) st
  /\ fetch_repository_contents remote urlparse_path fuel repo_link branch path
       (PStr "") st
     = fetch_repository_contents remote urlparse_path fuel repo_link branch
         path (PList []) st.
Proof. split; now apply fetch_falsy. Qed.

(** Distinct keys. *)
Lemma dict_set_NoDup d k v : NoDup (keys d) -> NoDup (keys (dict_set d k v)).
Proof.
  induction d as [| [k0 v0] d IH]; cbn; intros Hnd.
  - repeat constructor. intros [].
  - inversion Hnd as [| ? ? Hnotin Hnd']; subst.
    destruct (String.eqb_spec k0 k) as [-> | Hne]; cbn.
    + now constructor.
    + constructor; [ | now apply IH].
      rewrite keys_dict_set. intros [-> | Hin]; [congruence | contradiction].
Qed.

Lemma dict_update_NoDup other : forall d,
  NoDup (keys d) -> NoDup (keys (dict_update d other)).
Proof.
  unfold dict_update. induction other as [| [k v] other IH]; intros d Hnd.
  - exact Hnd.
  - cbn. apply IH. now apply dict_set_NoDup.
Qed.

Lemma fetch_items_NoDup (descend : string -> M W dict) exclude_folders items :
  (forall p st sub st', descend p st = (Ok sub, st') -> NoDup (keys sub)) ->
  forall files st files' st',
    NoDup (keys files) ->
    fetch_items remote descend exclude_folders items files st = (Ok files', st') ->
    NoDup (keys files').
Proof.
  intros Hd. induction items as [| item rest IH]; intros files st files' st' Hnd Hrun.
  - inversion Hrun; subst. exact Hnd.
  - cbn [fetch_items] in Hrun.
    destruct (String.eqb (i_type item) "dir").
    + destruct (skips_folder exclude_folders item); [eapply IH; eauto | ].
      unfold bind in Hrun.
      destruct (descend (i_path item) st) as [[sub | e] st1]; [ | discriminate].
      eapply IH; [ | exact Hrun]. now apply dict_update_NoDup.
    + destruct (String.eqb (i_type item) "file"); [ | eapply IH; eauto].
      unfold bind in Hrun.
      destruct (requests remote _ st) as [[r | e] st1]; [ | discriminate].
      eapply IH; [ | exact Hrun]. now apply dict_set_NoDup.
Qed.

(** The fetched map holds each path once. *)
Lemma fetch_NoDup fuel repo_link branch exclude_folders :
  forall path st files st',
    fetch_repository_contents remote urlparse_path fuel repo_link branch path
      exclude_folders st = (Ok files, st') ->
    NoDup (keys files).
Proof.
  induction fuel as [| fuel IH]; intros path st files st' Hrun; [discriminate | ].
  cbn [fetch_repository_contents] in Hrun. unfold bind at 1 in Hrun.
  destruct (lift _ st) as [[repo_path | e] st0]; [ | discriminate].
  unfold bind at 1 in Hrun.
  destruct (requests remote _ st0) as [[response | e] st1]; [ | discriminate].
  unfold bind at 1 in Hrun.
  destruct (raise_for_status response st1) as [[[] | e] st2]; [ | discriminate].
  eapply fetch_items_NoDup; [ | | exact Hrun].
  - intros p s sub s' Hsub. exact (IH p s sub s' Hsub).
  - constructor.
Qed.

End FetcherMore.

(* ------------------------------------------------------------------ *)
(** ** Strings: what the built-ins used by the handler compute *)

Lemma prefix_spec sub : forall s,
  String.prefix sub s = true <-> exists rest, s = (sub ++ rest)%string.
Proof.
  induction sub as [| c sub IH]; intros s.
  - split; [exists s; reflexivity | now destruct s].
  - destruct s as [| b s].
    + split; [discriminate | intros [rest Hr]; discriminate].
    + rewrite prefix_cons, andb_true_iff, IH. split.
      * intros [Hc [rest ->]]. apply Ascii.eqb_eq in Hc as ->. now exists rest.
      * intros [rest Hr]. cbn in Hr. inversion Hr; subst.
        split; [apply Ascii.eqb_refl | now exists rest].
Qed.

Lemma contains_spec s : forall sub,
  Py.contains s sub = true
  <-> exists before after, s = (before ++ sub ++ after)%string.
Proof.
  induction s as [| c s IH]; intros sub.
  - cbn [Py.contains]. destruct (String.prefix sub "") eqn:Hp.
    + apply prefix_spec in Hp as [rest Hr]. split; [ | reflexivity].
      intros _. exists "", rest. exact Hr.
    + split; [discriminate | ]. intros (before & after & Hs).
      destruct before; [ | discriminate]. cbn in Hs.
      assert (String.prefix sub "" = true) by (apply prefix_spec; eauto).
      congruence.
  - rewrite contains_cons, orb_true_iff, prefix_spec, IH. split.
    + intros [[rest Hr] | (before & after & ->)].
      * exists "", rest. exact Hr.
      * exists (String c before), after. reflexivity.
    + intros (before & after & Hs). destruct before as [| b before].
      * left. exists after. exact Hs.
      * right. cbn in Hs. inversion Hs; subst. eauto.
Qed.

(** X10.  A string given as [exclude_folders] is searched, not split: a folder
    is skipped exactly when the string is not empty and the folder name
    occurs somewhere in it. *)
Theorem string_exclusion_is_substring (s : string) (item : Item) :
  skips_folder (PStr s) item = true
  <-> s <> ""
      /\ exists before after,
           s = (before ++ folder_name_of item ++ after)%string.
Proof.
  unfold skips_folder. cbn [truthy py_in].
  rewrite andb_true_iff, negb_true_iff, contains_spec.
  destruct (String.eqb_spec s ""); intuition congruence.
Qed.

Lemma split_last_segment pre n :
  Py.contains n "/" = false ->
  exists l, l <> [] /\ Py.split "/" (pre ++ String "/" n) = l ++ [n].
Proof.
  intros Hn.
  assert (Hbase : Py.split "/" n = [n]).
  { clear pre. induction n as [| c n IH]; [reflexivity | ].
    rewrite contains_cons in Hn. apply orb_false_iff in Hn as [Hc Hn].
    cbn [Py.split]. rewrite (IH Hn).
    destruct (Ascii.eqb_spec c "/") as [-> | Hne]; [ | reflexivity].
    change "/"%string with (String "/" "") in Hc.
    rewrite prefix_cons, Ascii.eqb_refl in Hc. now destruct n. }
  induction pre as [| c pre (l & Hl & IH)].
  - exists [""]. split; [discriminate | ]. cbn. now rewrite Hbase.
  - cbn [String.append Py.split]. rewrite IH.
    destruct (Ascii.eqb c "/").
    + exists ("" :: l). split; [discriminate | reflexivity].
    + destruct l as [| h t]; [contradiction | ].
      exists (String c h :: t). split; [discriminate | reflexivity].
Qed.

(** X11.  The folder name tested against the exclusions is what follows the
    last slash of the path. *)
Theorem folder_name_is_last_segment item pre n :
  Py.contains n "/" = false ->
  i_path item = (pre ++ String "/" n)%string ->
  folder_name_of item = n.
Proof.
  intros Hn Hp. unfold folder_name_of, Py.last_item. rewrite Hp.
  destruct (split_last_segment pre n Hn) as (l & _ & ->).
  apply last_last.
Qed.

(** Stripping. *)
Lemma lstrip_head p s : starts_with p (Py.lstrip_by p s) = false.
Proof.
  induction s as [| c s IH]; [reflexivity | ].
  cbn [Py.lstrip_by]. destruct (p c) eqn:Hc; [exact IH | ]. cbn. exact Hc.
Qed.

Lemma rstrip_head p s :
  starts_with p s = false -> starts_with p (Py.rstrip_by p s) = false.
Proof.
  destruct s as [| c s]; [reflexivity | ]. cbn [starts_with]. intros Hc.
  cbn [Py.rstrip_by]. destruct (Py.rstrip_by p s); cbn; now rewrite Hc.
Qed.

Lemma rstrip_tail p s : ends_with p (Py.rstrip_by p s) = false.
Proof.
  induction s as [| c s IH]; [reflexivity | ].
  cbn [Py.rstrip_by]. destruct (Py.rstrip_by p s) as [| c' r] eqn:Hr.
  - destruct (p c) eqn:Hc; [reflexivity | ]. cbn. exact Hc.
  - exact IH.
Qed.

Lemma strip_by_ends p s :
  starts_with p (Py.strip_by p s) = false
  /\ ends_with p (Py.strip_by p s) = false.
Proof.
  unfold Py.strip_by. split; [ | apply rstrip_tail].
  apply rstrip_head, lstrip_head.
Qed.

Lemma lstrip_fixed p s : starts_with p s = false -> Py.lstrip_by p s = s.
Proof. destruct s as [| c s]; [reflexivity | ]. cbn. now intros ->. Qed.

Lemma rstrip_fixed p s : ends_with p s = false -> Py.rstrip_by p s = s.
Proof.
  induction s as [| c s IH]; [reflexivity | ].
  cbn [Py.rstrip_by]. destruct s as [| c' s'].
  - cbn. now intros ->.
  - intros H. rewrite (IH H). reflexivity.
Qed.

Lemma strip_by_idempotent p s :
  Py.strip_by p (Py.strip_by p s) = Py.strip_by p s.
Proof.
  destruct (strip_by_ends p s) as [Hs He].
  unfold Py.strip_by at 1. rewrite (lstrip_fixed _ _ Hs).
  now apply rstrip_fixed.
Qed.

Lemma starts_with_slash s :
  starts_with (Ascii.eqb "/"%char) s = String.prefix "/" s.
Proof.
  destruct s as [| c s]; [reflexivity | ].
  change "/"%string with (String "/" ""). rewrite prefix_cons.
  cbn [starts_with]. destruct (Ascii.eqb "/" c); [now destruct s | reflexivity].
Qed.

Lemma ends_with_slash s :
  ends_with (Ascii.eqb "/"%char) s = Py.endswith s "/".
Proof.
  induction s as [| c s IH]; [reflexivity | ].
  cbn [Py.endswith]. destruct s as [| c' s'].
  - cbn [ends_with String.eqb]. rewrite Ascii.eqb_sym.
    destruct (Ascii.eqb c "/"); reflexivity.
  - change (ends_with (Ascii.eqb "/"%char) (String c (String c' s')))
      with (ends_with (Ascii.eqb "/"%char) (String c' s')).
    rewrite IH.
    replace (String.eqb (String c (String c' s')) "/") with false; [reflexivity | ].
    cbn. now destruct (Ascii.eqb c "/").
Qed.

(** X12.  The repository path put into every API URL neither starts nor ends
    with a slash, however many slashes surround the path of the link. *)
Theorem repo_path_has_no_outer_slash
    (urlparse_path : string -> Res string) repo_link repo_path :
  repo_path_of urlparse_path repo_link = Ok repo_path ->
  String.prefix "/" repo_path = false /\ Py.endswith repo_path "/" = false.
Proof.
  unfold repo_path_of. destruct repo_link as [u |]; [ | discriminate].
  destruct (urlparse_path u) as [p | e]; [ | discriminate].
  intros H. inversion H; subst. unfold Py.strip_slash.
  rewrite <- starts_with_slash, <- ends_with_slash. apply strip_by_ends.
Qed.

(** Issue extraction. *)
Lemma first_prefix_sound pats s p :
  Py.first_prefix pats s = Some p -> In p pats /\ String.prefix p s = true.
Proof.
  induction pats as [| q pats IH]; cbn; [discriminate | ].
  destruct (String.prefix q s) eqn:Hq.
  - intros H. inversion H; subst. auto.
  - intros H. destruct (IH H). auto.
Qed.

Lemma contains_prefix sub s : String.prefix sub s = true -> Py.contains s sub = true.
Proof. intros H. destruct s; cbn [Py.contains]; now rewrite H. Qed.

Lemma findall_go_sound pats s : forall skip x,
  In x (Py.findall_go pats skip s) -> In x pats /\ Py.contains s x = true.
Proof.
  induction s as [| c s IH]; intros skip x Hin; [contradiction | ].
  assert (Htail : forall k, In x (Py.findall_go pats k s) ->
                            In x pats /\ Py.contains (String c s) x = true).
  { intros k Hk. destruct (IH k x Hk) as [Hp Hc]. split; [exact Hp | ].
    rewrite contains_cons, Hc. apply orb_true_r. }
  cbn [Py.findall_go] in Hin. destruct skip as [| k]; [ | eauto].
  destruct (Py.first_prefix pats (String c s)) as [p |] eqn:Hp; [ | eauto].
  destruct Hin as [<- | Hin]; [ | eauto].
  apply first_prefix_sound in Hp as [Hp Hpre]. split; [exact Hp | ].
  now apply contains_prefix.
Qed.

Lemma strip_contains s sub :
  Py.contains (Py.strip s) sub = true -> Py.contains s sub = true.
Proof.
  intros H. destruct (Py.contains s sub) eqn:Hc; [reflexivity | ].
  apply strip_keeps_out in Hc. congruence.
Qed.

Section AnalyzerMore.

Variable W : Type.
Variable remote : Remote W.

(** X13.  Every issue analyze_code reports is one of the five fixed labels and
    is spelled out in the completion the model gave for that analysis. *)
Theorem analyze_code_labels code st issues st' :
  analyze_code remote code st = (Ok issues, st') ->
  exists completion,
    log st' = log st ++ [Invoke (analysis_call code) (inr completion)]
    /\ Forall (fun issue =>
                 In issue issue_patterns
                 /\ Py.contains (completion_of completion) issue = true)
              issues.
Proof.
  unfold analyze_code, bind, bedrock_invoke_model, ret.
  fold (analysis_call code).
  destruct (invoke_model remote (analysis_call code) (server st))
    as [[msg | completion] s1]; [discriminate | ].
  intros H. inversion H; subst. exists completion. split; [reflexivity | ].
  apply Forall_forall. intros issue Hin.
  apply findall_go_sound in Hin as [Hp Hc]. split; [exact Hp | ].
  now apply strip_contains.
Qed.

Lemma bind_lift {A B} (r : Res A) (k : A -> M W B) st :
  bind (lift r) k st
  = match r with
    | Ok a => k a st
    | Raise e => (Raise e, st)
    end.
Proof. now destruct r. Qed.

(** A string given as [non_code_exts] is walked character by character. *)
Lemma remediate_items_iter items v exts : forall acc st,
  py_iter v = Ok exts ->
  remediate_items remote items v acc st
  = remediate_items remote items (PList exts) acc st.
Proof.
  intros acc st Hv. revert acc st.
  induction items as [| [p0 code0] rest IH]; intros acc st; [reflexivity | ].
  cbn [remediate_items py_iter]. rewrite Hv, !bind_lift.
  destruct (is_non_code p0 exts); [apply IH | ].
  apply bind_ext. intros issues st1. apply bind_ext. intros fixed st2. apply IH.
Qed.

Lemma in_chars c s : In (String c "") (Py.chars s) <-> Py.contains s (String c "") = true.
Proof.
  induction s as [| b s IH]; [cbn; intuition discriminate | ].
  cbn [Py.chars In]. rewrite contains_cons, orb_true_iff, IH, prefix_cons.
  split.
  - intros [H | H]; [left | now right]. inversion H; subst.
    rewrite Ascii.eqb_refl. now destruct s.
  - intros [H | H]; [left | now right].
    apply andb_true_iff in H as [H _]. apply Ascii.eqb_eq in H. now subst.
Qed.

Lemma chars_single x s : In x (Py.chars s) -> exists c, x = String c "".
Proof.
  induction s as [| b s IH]; [contradiction | ].
  intros [<- | H]; eauto.
Qed.

(** X15.  When the excluded extensions arrive as one string (as lambda_handler
    passes them), a file is left out exactly when its path ends with one
    of the characters of that string. *)
Theorem string_extensions_match_last_character code_repo s st :
  model_answers remote ->
  exists files st',
    analyze_and_remediate_code remote code_repo (PStr s) st = (Ok files, st')
    /\ forall p, In p (keys code_repo) ->
         (~ In p (keys files)
          <-> exists c pre,
                Py.contains s (String c "") = true
                /\ p = (pre ++ String c "")%string).
Proof.
  intros Hm. unfold analyze_and_remediate_code.
  rewrite (@remediate_items_iter code_repo (PStr s) (Py.chars s) [] st eq_refl).
  destruct (remediate_items_total (Py.chars s) code_repo [] st Hm)
    as (files & st' & Hrun).
  exists files, st'. split; [exact Hrun | ]. intros p Hp.
  apply remediate_items_ok in Hrun as (Hkeys & _ & _).
  assert (Hskip : is_non_code p (Py.chars s) = true
                  <-> exists c pre, Py.contains s (String c "") = true
                                    /\ p = (pre ++ String c "")%string).
  { rewrite is_non_code_spec. split.
    - intros (e & pre & He & ->). destruct (chars_single _ _ He) as [c ->].
      exists c, pre. split; [now apply in_chars | reflexivity].
    - intros (c & pre & Hc & ->). exists (String c ""), pre.
      split; [now apply in_chars | reflexivity]. }
  rewrite <- Hskip, Hkeys. unfold kept. cbn.
  destruct (is_non_code p (Py.chars s)); cbn; split; intros H; try reflexivity.
  - intros [[] | [_ Hk]]. discriminate.
  - exfalso. apply H. auto.
  - discriminate.
Qed.

(** Without a list of extensions ([None]) the analyzer fails at the first
    file, before any model call; only an empty FileMap gets through. *)
Theorem analyzer_without_extensions code_repo st :
  analyze_and_remediate_code remote code_repo PNone st
  = match code_repo with
    | [] => (Ok [], st)
    | _ :: _ => (Raise (TypeError "'NoneType' object is not iterable"), st)
    end.
Proof. destruct code_repo as [| [p c] rest]; reflexivity. Qed.

End AnalyzerMore.

(** Post-processing of a completion that needs none. *)
Lemma fence_at_prefix c s' :
  Py.fence_at c s' = true -> String.prefix fence (String c s') = true.
Proof.
  unfold Py.fence_at, Py.is_tick. destruct s' as [| c2 [| c3 rest]]; try discriminate.
  intros H. apply andb_true_iff in H as [H H3]. apply andb_true_iff in H as [H1 H2].
  apply Ascii.eqb_eq in H1, H2, H3. subst. unfold fence.
  rewrite !prefix_cons, !Ascii.eqb_refl. now destruct rest.
Qed.

Lemma sub_fence_fixed s :
  Py.contains s fence = false -> Py.sub_fence s = s.
Proof.
  unfold Py.sub_fence. induction s as [| c s IH]; intros H; [reflexivity | ].
  rewrite contains_cons in H. apply orb_false_iff in H as [Hp Hs].
  rewrite sub_fence_go_plain.
  - now rewrite IH.
  - destruct (Py.fence_at c s) eqn:Hf; [ | reflexivity].
    apply fence_at_prefix in Hf. congruence.
Qed.

(** X18.  A completion that holds neither a fence nor the preamble comes back
    as it is, trimmed of surrounding white space. *)
Theorem clean_remediation_leaves_plain_code completion :
  Py.contains completion fence = false ->
  Py.contains completion preamble = false ->
  clean_remediation completion = Py.strip completion.
Proof.
  intros Hf Hp. unfold clean_remediation.
  rewrite (sub_fence_fixed (Py.strip completion)) by now apply strip_keeps_out.
  unfold Py.strip at 2. rewrite strip_by_idempotent. fold (Py.strip completion).
  rewrite remove_absent by now apply strip_keeps_out.
  unfold Py.strip at 1. rewrite strip_by_idempotent. reflexivity.
Qed.

(** X19.  What remediate_code returns never starts or ends with white space. *)
Theorem clean_remediation_is_trimmed completion :
  starts_with Py.isspace (clean_remediation completion) = false
  /\ ends_with Py.isspace (clean_remediation completion) = false.
Proof. unfold clean_remediation, Py.strip. apply strip_by_ends. Qed.

(* ------------------------------------------------------------------ *)
(** ** Where the contents of the FileMap come from *)

Lemma in_dict_set d k v p c :
  In (p, c) (dict_set d k v) -> (p, c) = (k, v) \/ In (p, c) d.
Proof.
  induction d as [| [k0 v0] d IH]; cbn.
  - intuition.
  - destruct (String.eqb_spec k0 k) as [-> | Hne]; cbn; intuition.
Qed.

Lemma in_dict_update other : forall d p c,
  In (p, c) (dict_update d other) -> In (p, c) d \/ In (p, c) other.
Proof.
  unfold dict_update. induction other as [| [k v] other IH]; intros d p c H.
  - now left.
  - cbn in H. apply IH in H as [H | H]; [ | right; now right].
    apply in_dict_set in H as [H | H]; [right; left; congruence | now left].
Qed.

Section FetchedContents.

Variable W : Type.
Variable remote : Remote W.
Variable urlparse_path : string -> Res string.

Lemma downloaded_app_l made more c : downloaded made c -> downloaded (made ++ more) c.
Proof.
  intros (u & resp & Hin & Ht). exists u, resp.
  split; [apply in_or_app; now left | exact Ht].
Qed.

Lemma downloaded_app_r made more c : downloaded more c -> downloaded (made ++ more) c.
Proof.
  intros (u & resp & Hin & Ht). exists u, resp.
  split; [apply in_or_app; now right | exact Ht].
Qed.

Lemma fetch_items_contents (descend : string -> M W dict) exclude_folders items :
  (forall path st sub st',
      descend path st = (Ok sub, st') ->
      exists made, log st' = log st ++ made
                   /\ forall p c, In (p, c) sub -> downloaded made c) ->
  forall files st files' st',
    fetch_items remote descend exclude_folders items files st = (Ok files', st') ->
    exists made, log st' = log st ++ made
                 /\ forall p c, In (p, c) files' ->
                                In (p, c) files \/ downloaded made c.
Proof.
  intros Hd. induction items as [| item rest IH]; intros files st files' st' Hrun.
  - inversion Hrun; subst. exists []. rewrite app_nil_r. auto.
  - cbn [fetch_items] in Hrun.
    destruct (String.eqb (i_type item) "dir").
    + destruct (skips_folder exclude_folders item); [eapply IH; eauto | ].
      unfold bind in Hrun.
      destruct (descend (i_path item) st) as [[sub | e] st1] eqn:Hsub;
        [ | discriminate].
      destruct (Hd _ _ _ _ Hsub) as (made1 & Hlog1 & Hc1).
      destruct (IH _ _ _ _ Hrun) as (made2 & Hlog2 & Hc2).
      exists (made1 ++ made2). rewrite Hlog2, Hlog1, app_assoc.
      split; [reflexivity | ]. intros p c Hin.
      destruct (Hc2 p c Hin) as [H | H]; [ | right; now apply downloaded_app_r].
      apply in_dict_update in H as [H | H]; [now left | ].
      right. apply downloaded_app_l. eauto.
    + destruct (String.eqb (i_type item) "file"); [ | eapply IH; eauto].
      unfold bind, requests in Hrun.
      destruct (send remote (GET (i_download_url item)) (server st))
        as [[msg | r] s1]; [discriminate | ].
      destruct (IH _ _ _ _ Hrun) as (made2 & Hlog2 & Hc2).
      cbn [log] in Hlog2.
      exists ([Http (GET (i_download_url item)) (inr r)] ++ made2).
      rewrite Hlog2, app_assoc. split; [reflexivity | ]. intros p c Hin.
      destruct (Hc2 p c Hin) as [H | H]; [ | right; now apply downloaded_app_r].
      apply in_dict_set in H as [H | H]; [ | now left].
      right. apply downloaded_app_l. inversion H; subst.
      exists (i_download_url item), r. split; [now left | reflexivity].
Qed.

(** X8.  Every content in the FileMap the fetcher returns is the body of a
    response it received to a GET during that call, whatever the status
    of that response. *)
Theorem fetch_contents_are_response_bodies fuel repo_link branch exclude_folders :
  forall path st files st',
    fetch_repository_contents remote urlparse_path fuel repo_link branch path
      exclude_folders st = (Ok files, st') ->
    exists made,
      log st' = log st ++ made
      /\ forall p c, In (p, c) files ->
           exists u resp, In (Http (GET u) (inr resp)) made /\ text resp = c.
Proof.
  induction fuel as [| fuel IH]; intros path st files st' Hrun; [discriminate | ].
  cbn [fetch_repository_contents] in Hrun. unfold bind at 1 in Hrun.
  destruct (lift _ st) as [[repo_path | e] st0] eqn:Hlift; [ | discriminate].
  inversion Hlift; subst st0. clear Hlift.
  unfold bind at 1, requests at 1 in Hrun.
  destruct (send remote _ (server st)) as [[msg | response] s1]; [discriminate | ].
  unfold bind at 1 in Hrun.
  destruct (raise_for_status response _) as [[[] | e] st2] eqn:Hst; [ | discriminate].
  assert (st2 = {| server := s1;
                   log := log st ++ [Http (GET (contents_url repo_path path branch))
                                          (inr response)] |}) as ->.
  { unfold raise_for_status in Hst. destruct (http_error_msg response);
      inversion Hst; reflexivity. }
  apply fetch_items_contents in Hrun as (made & Hlog & Hc).
  - cbn [log] in Hlog. eexists. rewrite Hlog, <- app_assoc.
    split; [reflexivity | ]. intros p c Hin.
    destruct (Hc p c Hin) as [[] | H]. now apply downloaded_app_r.
  - intros p s sub s' Hsub. exact (IH p s sub s' Hsub).
Qed.

End FetchedContents.

(* ------------------------------------------------------------------ *)
(** ** The entry point: parameters and outcomes *)

Lemma dict_get_set_same d k v : dict_get (dict_set d k v) k = Some v.
Proof.
  induction d as [| [k0 v0] d IH]; cbn.
  - now rewrite String.eqb_refl.
  - destruct (String.eqb_spec k0 k) as [-> | Hne]; cbn.
    + now rewrite String.eqb_refl.
    + destruct (String.eqb_spec k0 k); [contradiction | exact IH].
Qed.

Lemma build_properties_app before : forall after acc,
  build_properties (before ++ after) acc
  = match build_properties before acc with
    | Ok mid => build_properties after mid
    | Raise e => Raise e
    end.
Proof.
  induction before as [| param before IH]; intros after acc; [reflexivity | ].
  cbn. destruct (name param); [ | reflexivity].
  destruct (value param); [apply IH | reflexivity].
Qed.

Lemma build_properties_keeps params : forall acc props k,
  build_properties params acc = Ok props ->
  (forall param, In param params -> name param <> Some k) ->
  dict_get props k = dict_get acc k.
Proof.
  induction params as [| param rest IH]; intros acc props k Hb Hno; cbn in Hb.
  - now inversion Hb.
  - destruct (name param) as [n |] eqn:Hn; [ | discriminate].
    destruct (value param) as [v |]; [ | discriminate].
    rewrite (IH _ _ k Hb) by (intros q Hq; apply Hno; now right).
    apply dict_get_set_other. intros ->. apply (Hno param); [now left | exact Hn].
Qed.

(** X4.  When a parameter name occurs more than once, the value of its last
    occurrence is the one the handler uses. *)
Theorem last_parameter_wins before param after props k v :
  build_properties (before ++ param :: after) [] = Ok props ->
  name param = Some k -> value param = Some v ->
  (forall later, In later after -> name later <> Some k) ->
  dict_get props k = Some v.
Proof.
  intros Hb Hn Hv Hlater. rewrite build_properties_app in Hb.
  destruct (build_properties before []) as [mid | e]; [ | discriminate].
  cbn in Hb. rewrite Hn, Hv in Hb.
  rewrite (@build_properties_keeps after (dict_set mid k v) props k Hb Hlater).
  apply dict_get_set_same.
Qed.

Lemma build_properties_malformed params : forall acc,
  (exists param, In param params /\ (name param = None \/ value param = None)) ->
  exists key, (key = "name" \/ key = "value")
              /\ build_properties params acc = Raise (KeyError key).
Proof.
  induction params as [| param rest IH]; intros acc (bad & Hin & Hbad);
    [contradiction | ].
  cbn. destruct (name param) as [n |] eqn:Hn; [ | eauto].
  destruct (value param) as [v |] eqn:Hv; [ | eauto].
  apply IH. destruct Hin as [<- | Hin]; [ | eauto].
  destruct Hbad; congruence.
Qed.

Section EntryPointMore.

Variable W : Type.
Variable remote : Remote W.
Variable urlparse_path : string -> Res string.

(** X3.  A parameter entry without "name" or "value" is reported as missing
    information, naming the key, before any remote call. *)
Theorem malformed_parameter_is_reported fuel event a ag fn mv st :
  agent event = Some a -> actionGroup event = Some ag ->
  function event = Some fn -> messageVersion event = Some mv ->
  (exists param, In param (get_parameters event)
                 /\ (name param = None \/ value param = None)) ->
  exists key,
    (key = "name" \/ key = "value")
    /\ lambda_handler remote urlparse_path fuel event st
       = (Ok {| r_actionGroup := ag; r_function := fn;
                r_body := Some ("Missing required information: '" ++ key ++ "'")%string;
                r_messageVersion := mv |}, st).
Proof.
  intros Ha Hag Hfn Hmv Hbad.
  destruct (@build_properties_malformed (get_parameters event) [] Hbad)
    as (key & Hkey & Hb).
  exists key. split; [exact Hkey | ].
  unfold lambda_handler, try_block. rewrite Ha, Hag, Hfn.
  unfold pipeline. unfold bind at 1, lift at 1. rewrite Hb.
  unfold error_response. cbn. now rewrite Hmv.
Qed.

(** X2.  An exception leaves the handler exactly when the event lacks one of
    "agent", "actionGroup", "function" and "messageVersion"; otherwise an
    envelope is returned. *)
Theorem lambda_handler_raises_iff fuel event st :
  (exists e st', lambda_handler remote urlparse_path fuel event st = (Raise e, st'))
  <-> (agent event = None \/ actionGroup event = None
       \/ function event = None \/ messageVersion event = None).
Proof.
  split.
  - intros (e & st' & Hraise).
    destruct (agent event) as [a |] eqn:Ha; [ | auto].
    destruct (actionGroup event) as [ag |] eqn:Hag; [ | auto].
    destruct (function event) as [fn |] eqn:Hfn; [ | auto].
    destruct (messageVersion event) as [mv |] eqn:Hmv; [ | auto].
    destruct (@lambda_handler_returns_when_identified W remote urlparse_path
                fuel event a ag fn mv st Ha Hag Hfn Hmv)
      as (body_text & st1 & Hok).
    congruence.
  - intros Hmissing. unfold lambda_handler, try_block.
    destruct (agent event) as [a |]; [ | cbn; eauto].
    destruct (actionGroup event) as [ag |]; [ | cbn; eauto].
    destruct (function event) as [fn |]; [ | cbn; eauto].
    destruct (messageVersion event) as [mv |] eqn:Hmv.
    { destruct Hmissing as [H | [H | [H | H]]]; discriminate. }
    destruct (@pipeline_needs_message_version W remote urlparse_path fuel
                event ag fn st Hmv) as (e & st' & Hp).
    rewrite Hp. unfold error_response. cbn. rewrite Hmv.
    destruct e; eauto.
Qed.

End EntryPointMore.

(* ------------------------------------------------------------------ *)
(** ** The publisher: failures and the order of writes *)

Section PublisherMore.

Variable W : Type.
Variable remote : Remote W.
Variable urlparse_path : string -> Res string.

Lemma only_sha_of r : only anything (sha_of (W := W) r).
Proof. unfold sha_of. destruct (json_sha r); [apply only_ret | apply only_raise]. Qed.

Lemma only_create_blobs repo_path items : forall blobs,
  only anything (create_blobs remote repo_path items blobs).
Proof.
  induction items as [| [file_path code] rest IH]; intros blobs.
  - apply only_ret.
  - cbn [create_blobs].
    apply only_bind; [apply only_requests; reflexivity | intros r].
    apply only_bind; [apply only_sha_of | intros sha; apply IH].
Qed.

(** X21.  A base branch that does not resolve stops the publisher after
    that one read: when the answer to the request for the base ref yields
    no commit id, create_new_branch raises the exception of that lookup
    ([KeyError] of the key that is missing, [TypeError] for a body that is
    no object, the decoding error for a body that is no JSON) and has
    sent nothing else. *)
Theorem unresolved_base_branch event st repo_path r_base s1 :
  repo_path_of urlparse_path (repository_link event) = Ok repo_path ->
  send remote (GET (ref_url repo_path (base_branch event))) (server st)
  = (inr r_base, s1) ->
  json_sha r_base = None ->
  create_new_branch remote urlparse_path event st
  = (Raise (match json_failure r_base with
            | MissingKey key => KeyError key
            | NotSubscriptable msg => TypeError msg
            | NotJson msg => RemoteError msg
            end),
     {| server := s1;
        log := log st ++ [Http (GET (ref_url repo_path (base_branch event)))
                               (inr r_base)] |}).
Proof.
  intros Hrp Hsend Hsha. unfold create_new_branch.
  unfold bind at 1, lift at 1. rewrite Hrp.
  unfold bind at 1, requests at 1. rewrite Hsend.
  unfold bind at 1, sha_of at 1. rewrite Hsha. reflexivity.
Qed.

(** X22.  Whatever its outcome, the publisher writes nothing before it has
    resolved the base branch and seen the check of the new name answered
    with a status other than 200; its first write creates the new ref at
    the base commit.  What it wrote stays: nothing is taken back when a
    later step fails. *)
Theorem publisher_writes_after_guard event st r st' :
  create_new_branch remote urlparse_path event st = (r, st') ->
  exists made,
    log st' = log st ++ made
    /\ (filter is_write made = []
        \/ exists repo_path r_base C1 r_new answer rest,
             json_sha r_base = Some C1
             /\ status_code r_new <> 200%Z
             /\ made = [Http (GET (ref_url repo_path (base_branch event)))
                             (inr r_base);
                        Http (GET (ref_url repo_path (new_branch_name event)))
                             (inr r_new);
                        Http (POST (api repo_path "/git/refs")
                                (ref_payload (new_branch_name event) C1))
                             answer]
                       ++ rest).
Proof.
  unfold create_new_branch. intros Hrun.
  unfold bind at 1, lift at 1 in Hrun.
  destruct (repo_path_of urlparse_path (repository_link event))
    as [repo_path | e].
  2:{ inversion Hrun; subst. exists []. rewrite app_nil_r. auto. }
  unfold bind at 1, requests at 1 in Hrun.
  destruct (send remote _ (server st)) as [[msg | r_base] s1].
  { inversion Hrun; subst. eexists. split; [reflexivity | now left]. }
  unfold bind at 1, sha_of at 1 in Hrun.
  destruct (json_sha r_base) as [C1 |] eqn:Hbase.
  2:{ inversion Hrun; subst. eexists. split; [reflexivity | now left]. }
  unfold ret at 1 in Hrun. cbn [server log] in Hrun.
  unfold bind at 1, requests at 1 in Hrun. cbn [server log] in Hrun.
  destruct (send remote _ s1) as [[msg | r_new] s2].
  { inversion Hrun; subst. eexists. cbn [log]. rewrite <- app_assoc.
    split; [reflexivity | now left]. }
  destruct (Z.eqb_spec (status_code r_new) 200) as [Heq | Hne].
  { inversion Hrun; subst. eexists. cbn [log]. rewrite <- app_assoc.
    split; [reflexivity | now left]. }
  unfold bind at 1, requests at 1 in Hrun. cbn [server log] in Hrun.
  destruct (send remote _ s2) as [answer s3].
  assert (Hrest : exists rest,
             log st' = (((log st ++ [Http (GET (ref_url repo_path (base_branch event))) (inr r_base)])
                         ++ [Http (GET (ref_url repo_path (new_branch_name event))) (inr r_new)])
                        ++ [Http (POST (api repo_path "/git/refs")
                                   (ref_payload (new_branch_name event) C1)) answer])
                       ++ rest).
  { destruct answer as [msg | r_ref].
    - inversion Hrun; subst. exists []. now rewrite app_nil_r.
    - revert Hrun.
      match goal with
      | |- ?k ?s = _ -> _ =>
          assert (Honly : only anything k);
          [ | intros Hrun; destruct (Honly _ _ _ Hrun) as (rest & Hlog & _);
              exists rest; exact Hlog ]
      end.
      repeat first
        [ apply only_bind; [ | intros ? ]
        | apply only_create_blobs
        | apply only_sha_of
        | apply only_ret
        | apply only_requests; reflexivity ]. }
  destruct Hrest as (rest & Hlog).
  eexists. split.
  - rewrite Hlog, <- !app_assoc. reflexivity.
  - right. exists repo_path, r_base, C1, r_new, answer, rest.
    split; [exact Hbase | split; [exact Hne | reflexivity]].
Qed.

End PublisherMore.

(* ------------------------------------------------------------------ *)
(** ** A successful invocation *)

Section Success.

Variable W : Type.
Variable remote : Remote W.
Variable urlparse_path : string -> Res string.

Lemma requests_ok req st resp st' :
  requests remote req st = (Ok resp, st') ->
  log st' = log st ++ [Http req (inr resp)].
Proof.
  unfold requests. destruct (send remote req (server st)) as [[msg | r] s1];
    intros H; inversion H; subst; reflexivity.
Qed.

Lemma sha_of_ok r (st : St W) sha st' :
  sha_of r st = (Ok sha, st') -> json_sha r = Some sha /\ st' = st.
Proof.
  unfold sha_of. destruct (json_sha r); intros H; inversion H; auto.
Qed.

Lemma create_new_branch_ends_with_patch event st returned st' :
  create_new_branch remote urlparse_path event st = (Ok returned, st') ->
  returned = new_branch_name event
  /\ exists repo_path new_tree parent r_commit commit r_patch earlier,
       repo_path_of urlparse_path (repository_link event) = Ok repo_path
       /\ json_sha r_commit = Some commit
       /\ log st' = earlier
                    ++ [Http (POST (api repo_path "/git/commits")
                                (commit_payload new_tree parent))
                             (inr r_commit);
                        Http (PATCH (ref_url repo_path (new_branch_name event))
                                (JObj [("sha", JStr commit)]))
                             (inr r_patch)].
Proof.
  unfold create_new_branch. intros Hrun.
  unfold bind at 1, lift at 1 in Hrun.
  destruct (repo_path_of urlparse_path (repository_link event))
    as [repo_path | e]; [ | discriminate].
  unfold bind at 1 in Hrun.
  destruct (requests remote _ st) as [[r_base | e] st1]; [ | discriminate].
  unfold bind at 1 in Hrun.
  destruct (sha_of r_base st1) as [[C1 | e] st2]; [ | discriminate].
  unfold bind at 1 in Hrun.
  destruct (requests remote _ st2) as [[r_new | e] st3]; [ | discriminate].
  destruct (status_code r_new =? 200)%Z; [discriminate | ].
  unfold bind at 1 in Hrun.
  destruct (requests remote _ st3) as [[r_ref | e] st4]; [ | discriminate].
  unfold bind at 1 in Hrun.
  destruct (create_blobs remote repo_path (remediations event) [] st4)
    as [[blobs | e] st5]; [ | discriminate].
  unfold bind at 1 in Hrun.
  destruct (requests remote _ st5) as [[r_tree | e] st6]; [ | discriminate].
  unfold bind at 1 in Hrun.
  destruct (sha_of r_tree st6) as [[base_tree | e] st7]; [ | discriminate].
  unfold bind at 1 in Hrun.
  destruct (requests remote _ st7) as [[r_new_tree | e] st8]; [ | discriminate].
  unfold bind at 1 in Hrun.
  destruct (sha_of r_new_tree st8) as [[new_tree | e] st9]; [ | discriminate].
  unfold bind at 1 in Hrun.
  destruct (requests remote _ st9) as [[r_commit | e] st10] eqn:Hcommit;
    [ | discriminate].
  apply requests_ok in Hcommit.
  unfold bind at 1 in Hrun.
  destruct (sha_of r_commit st10) as [[commit | e] st11] eqn:Hsha;
    [ | discriminate].
  apply sha_of_ok in Hsha as [Hsha ->].
  unfold bind at 1 in Hrun.
  destruct (requests remote _ st10) as [[r_patch | e] st12] eqn:Hpatch;
    [ | discriminate].
  apply requests_ok in Hpatch.
  unfold ret in Hrun. inversion Hrun; subst. split; [reflexivity | ].
  exists repo_path, new_tree, C1, r_commit, commit, r_patch, (log st9).
  split; [reflexivity | split; [exact Hsha | ]].
  rewrite Hpatch, Hcommit, <- app_assoc. reflexivity.
Qed.

(** X23.  When the [try] body completes, the text body of the response is the
    requested new branch name as given (absent if the parameter was), and
    the last two things sent were the creation of a commit and the update
    of that branch to the id the hosting API returned for that commit. *)
Theorem success_ends_with_ref_update fuel event ag fn st envelope st' :
  pipeline remote urlparse_path fuel event ag fn st = (Ok envelope, st') ->
  exists props repo_path new_tree parent r_commit commit r_patch earlier,
    build_properties (get_parameters event) [] = Ok props
    /\ r_body envelope = dict_get props "new_remediated_branch_name"
    /\ r_actionGroup envelope = ag /\ r_function envelope = fn
    /\ repo_path_of urlparse_path (dict_get props "repository_url")
       = Ok repo_path
    /\ json_sha r_commit = Some commit
    /\ log st' = earlier
                 ++ [Http (POST (api repo_path "/git/commits")
                             (JObj [("message", JStr "Remediated code");
                                    ("tree", JStr new_tree);
                                    ("parents", JArr [JStr parent])]))
                          (inr r_commit);
                     Http (PATCH (ref_url repo_path
                                    (dict_get props "new_remediated_branch_name"))
                             (JObj [("sha", JStr commit)]))
                          (inr r_patch)].
Proof.
  unfold pipeline. intros Hrun.
  unfold bind at 1, lift at 1 in Hrun.
  destruct (build_properties (get_parameters event) []) as [props | e];
    [ | discriminate].
  unfold bind at 1 in Hrun.
  destruct (fetch_repository_contents _ _ _ _ _ _ _ st)
    as [[code_repo | e] st1]; [ | discriminate].
  unfold bind at 1 in Hrun.
  destruct (analyze_and_remediate_code _ _ _ st1)
    as [[remediations | e] st2]; [ | discriminate].
  unfold bind at 1 in Hrun.
  destruct (create_new_branch _ _ _ st2) as [[returned | e] st3] eqn:Hpub;
    [ | discriminate].
  apply create_new_branch_ends_with_patch in Hpub
    as (-> & repo_path & new_tree & parent & r_commit & commit & r_patch
        & earlier & Hrp & Hsha & Hlog).
  cbn [new_branch_name repository_link] in *.
  destruct (messageVersion event) as [mv |]; [ | discriminate].
  unfold ret in Hrun. inversion Hrun; subst. cbn.
  exists props, repo_path, new_tree, parent, r_commit, commit, r_patch, earlier.
  auto 10.
Qed.

(** X1.  With its four identifiers present the handler answers with an
    envelope that echoes actionGroup, function and messageVersion,
    whatever happens in between. *)
Theorem envelope_echoes_identifiers fuel event a ag fn mv st :
  agent event = Some a -> actionGroup event = Some ag ->
  function event = Some fn -> messageVersion event = Some mv ->
  exists body_text st',
    lambda_handler remote urlparse_path fuel event st
    = (Ok {| r_actionGroup := ag; r_function := fn;
             r_body := body_text; r_messageVersion := mv |}, st').
Proof. apply lambda_handler_returns_when_identified. Qed.

End Success.

(** X20.  The fence pass of the post-processing leaves no three backticks in a
    row, also where removing a fence brings backticks together. *)
Theorem fence_pass_leaves_no_fence s :
  Py.contains (Py.sub_fence s) fence = false.
Proof. apply sub_fence_clean. Qed.

(* ------------------------------------------------------------------ *)
(** ** The properties above on the mock *)

(** X1, witness. *)
Lemma envelope_echoes_identifiers_witness :
  exists body_text st',
    lambda_handler (Mock.remote Mock.healthy) Mock.urlparse_path 5
      mock_request Mock.start
    = (Ok {| r_actionGroup := "repo-actions"; r_function := "remediate";
             r_body := body_text; r_messageVersion := "1.0" |}, st').
Proof.
  exact (@envelope_echoes_identifiers nat (Mock.remote Mock.healthy)
           Mock.urlparse_path 5 mock_request "remediator" "repo-actions"
           "remediate" "1.0" Mock.start eq_refl eq_refl eq_refl eq_refl).
Defined.

(** X3, witness. *)
Lemma malformed_parameter_is_reported_witness :
  exists key,
    (key = "name" \/ key = "value")
    /\ lambda_handler (Mock.remote Mock.healthy) Mock.urlparse_path 5
         (Mock.event [nameless_parameter]) Mock.start
       = (Ok {| r_actionGroup := "repo-actions"; r_function := "remediate";
                r_body := Some ("Missing required information: '" ++ key ++ "'")%string;
                r_messageVersion := "1.0" |}, Mock.start).
Proof.
  apply (@malformed_parameter_is_reported nat (Mock.remote Mock.healthy)
           Mock.urlparse_path 5 (Mock.event [nameless_parameter])
           "remediator" "repo-actions" "remediate" "1.0" Mock.start
           eq_refl eq_refl eq_refl eq_refl).
  exists nameless_parameter. split; [now left | now left].
Defined.

(** X4, witness. *)
Lemma last_parameter_wins_witness :
  dict_get [("branch_name", "dev"); ("x", "y")] "branch_name" = Some "dev".
Proof.
  apply (@last_parameter_wins [Mock.param "branch_name" "main"]
           (Mock.param "branch_name" "dev") [Mock.param "x" "y"]
           [("branch_name", "dev"); ("x", "y")] "branch_name" "dev"
           eq_refl eq_refl eq_refl).
  intros later [<- | []]. discriminate.
Defined.

(** X5, witness. *)
Lemma fetch_only_reads_witness :
  exists made,
    log (snd mock_fetch) = log Mock.start ++ made
    /\ forallb is_get made = true.
Proof.
  apply (@fetch_only_reads nat (Mock.remote Mock.healthy) Mock.urlparse_path 5
           (Some Mock.repo_link) (Some "main") "" mock_exclusions Mock.start
           (fst mock_fetch) (snd mock_fetch)).
  apply surjective_pairing.
Defined.

(** X8, witness. *)
Lemma fetch_contents_are_response_bodies_witness :
  exists made,
    log (snd mock_fetch) = log Mock.start ++ made
    /\ forall p c,
         In (p, c) [("src/b.py", "# src/b.py"); ("src/lib/c.py", "# src/lib/c.py");
                    ("a.py", "# a.py"); ("README.md", "# README.md")] ->
         exists u resp, In (Http (GET u) (inr resp)) made /\ text resp = c.
Proof.
  apply (@fetch_contents_are_response_bodies nat (Mock.remote Mock.healthy)
           Mock.urlparse_path 5 (Some Mock.repo_link) (Some "main")
           mock_exclusions "" Mock.start).
  vm_compute. reflexivity.
Defined.

(** X9, witness. *)
Lemma fetch_aborts_on_failed_listing_witness :
  fst (fetch_repository_contents (Mock.remote Mock.healthy) Mock.urlparse_path 5
         (Some Mock.repo_link) (Some "main") "nowhere" PNone Mock.start)
  = Raise (HTTPError
             "404 Client Error: Not Found for url: https://api.github.com/repos/octo/demo/contents/nowhere?ref=main").
Proof.
  apply (@fetch_aborts_on_failed_listing nat (Mock.remote Mock.healthy)
           Mock.urlparse_path 4 (Some Mock.repo_link) (Some "main") "nowhere"
           PNone Mock.repo_path Mock.start
           (Mock.get Mock.healthy
              (contents_url Mock.repo_path "nowhere" (Some "main")))
           0).
  - reflexivity.
  - reflexivity.
  - vm_compute. reflexivity.
Defined.

(** X11, witness. *)
Lemma folder_name_is_last_segment_witness :
  folder_name_of (Mock.dir "src/node_modules") = "node_modules".
Proof.
  apply (@folder_name_is_last_segment (Mock.dir "src/node_modules") "src"
           "node_modules"); reflexivity.
Defined.

(** X12, witness. *)
Lemma repo_path_has_no_outer_slash_witness :
  String.prefix "/" "octo/demo" = false /\ Py.endswith "octo/demo" "/" = false.
Proof.
  apply (@repo_path_has_no_outer_slash Mock.urlparse_path
           (Some Mock.repo_link) "octo/demo").
  reflexivity.
Defined.

(** X13, witness. *)
Lemma analyze_code_labels_witness :
  exists completion,
    log (snd (analyze_code talkative "print(1)" Mock.start))
    = log Mock.start ++ [Invoke (analysis_call "print(1)") (inr completion)]
    /\ Forall (fun issue =>
                 In issue issue_patterns
                 /\ Py.contains (completion_of completion) issue = true)
              ["potential bug"; "code style issue"].
Proof.
  apply (@analyze_code_labels nat talkative "print(1)" Mock.start).
  vm_compute. reflexivity.
Defined.

(** X14, witness. *)
Lemma analyzer_calls_witness :
  exists made,
    log (snd mock_analysis) = log Mock.start ++ made
    /\ forallb is_invoke made = true
    /\ (forall files, fst mock_analysis = Ok files ->
          length made = 2 * length (filter (kept [".md"]) (keys mock_repo))).
Proof.
  apply (@analyzer_calls nat (Mock.remote Mock.healthy) mock_repo [".md"]
           Mock.start (fst mock_analysis) (snd mock_analysis)).
  apply surjective_pairing.
Defined.

(** X15, witness. *)
Lemma string_extensions_match_last_character_witness :
  exists files st',
    analyze_and_remediate_code (Mock.remote Mock.healthy)
      [("a.py", "print(1)"); ("README.md", "hi"); ("cmd", "x")]
      (PStr ".md") Mock.start
    = (Ok files, st')
    /\ forall p, In p ["a.py"; "README.md"; "cmd"] ->
         (~ In p (keys files)
          <-> exists c pre,
                Py.contains ".md" (String c "") = true
                /\ p = (pre ++ String c "")%string).
Proof.
  exact (@string_extensions_match_last_character nat
           (Mock.remote Mock.healthy)
           [("a.py", "print(1)"); ("README.md", "hi"); ("cmd", "x")]
           ".md" Mock.start (mock_model_answers Mock.healthy)).
Defined.

(** X17, witness. *)
Lemma clean_remediation_without_preamble_witness :
  Py.contains
    (clean_remediation ("```python" ++ Py.nl ++ "print(1)" ++ Py.nl ++ "```"))
    fence = false.
Proof.
  apply (clean_remediation_without_preamble
           ("```python" ++ Py.nl ++ "print(1)" ++ Py.nl ++ "```")).
  vm_compute. reflexivity.
Defined.

(** X18, witness. *)
Lemma clean_remediation_leaves_plain_code_witness :
  clean_remediation ("  print(1)" ++ Py.nl) = Py.strip ("  print(1)" ++ Py.nl).
Proof.
  apply (@clean_remediation_leaves_plain_code ("  print(1)" ++ Py.nl));
    vm_compute; reflexivity.
Defined.

(** X21, witness. *)
Lemma unresolved_base_branch_witness :
  fst (create_new_branch (Mock.remote Mock.healthy) Mock.urlparse_path
         (mock_publish_event "gone") Mock.start)
  = Raise (KeyError "object").
Proof.
  rewrite (@unresolved_base_branch nat (Mock.remote Mock.healthy)
             Mock.urlparse_path (mock_publish_event "gone") Mock.start
             Mock.repo_path
             (Mock.get Mock.healthy (ref_url Mock.repo_path (Some "gone"))) 0
             eq_refl eq_refl eq_refl).
  reflexivity.
Defined.

(** X22, witness. *)
Lemma publisher_writes_after_guard_witness :
  exists made,
    log (snd mock_publish) = log Mock.start ++ made
    /\ (filter is_write made = []
        \/ exists repo_path r_base C1 r_new answer rest,
             json_sha r_base = Some C1
             /\ status_code r_new <> 200%Z
             /\ made = [Http (GET (ref_url repo_path (Some "main"))) (inr r_base);
                        Http (GET (ref_url repo_path (Some "fix/1"))) (inr r_new);
                        Http (POST (api repo_path "/git/refs")
                                (ref_payload (Some "fix/1") C1))
                             answer]
                       ++ rest).
Proof.
  apply (@publisher_writes_after_guard nat (Mock.remote Mock.healthy)
           Mock.urlparse_path (mock_publish_event "main") Mock.start
           (fst mock_publish) (snd mock_publish)).
  apply surjective_pairing.
Defined.

(** X23, witness. *)
Lemma success_ends_with_ref_update_witness :
  exists props repo_path new_tree parent r_commit commit r_patch earlier,
    build_properties (get_parameters mock_request) [] = Ok props
    /\ Some "fix/1" = dict_get props "new_remediated_branch_name"
    /\ "repo-actions" = "repo-actions" /\ "remediate" = "remediate"
    /\ repo_path_of Mock.urlparse_path (dict_get props "repository_url")
       = Ok repo_path
    /\ json_sha r_commit = Some commit
    /\ log (snd mock_pipeline)
       = earlier
         ++ [Http (POST (api repo_path "/git/commits")
                     (JObj [("message", JStr "Remediated code");
                            ("tree", JStr new_tree);
                            ("parents", JArr [JStr parent])]))
                  (inr r_commit);
             Http (PATCH (ref_url repo_path
                            (dict_get props "new_remediated_branch_name"))
                     (JObj [("sha", JStr commit)]))
                  (inr r_patch)].
Proof.
  apply (@success_ends_with_ref_update nat (Mock.remote Mock.healthy)
           Mock.urlparse_path 5 mock_request "repo-actions" "remediate"
           Mock.start
           {| r_actionGroup := "repo-actions"; r_function := "remediate";
              r_body := Some "fix/1"; r_messageVersion := "1.0" |}
           (snd mock_pipeline)).
  vm_compute. reflexivity.
Defined.

(* ------------------------------------------------------------------ *)
(** ** Failures of the model, and what is never written *)

Section FailFast.

Variable W : Type.
Variable remote : Remote W.
Variable urlparse_path : string -> Res string.

Lemma fails_fast_ret {A} (a : A) : fails_fast (ret (W := W) a).
Proof.
  intros st r st' H. inversion H; subst. exists []. now rewrite app_nil_r.
Qed.

Lemma fails_fast_bind {A B} (m : M W A) (k : A -> M W B) :
  fails_fast m -> (forall a, fails_fast (k a)) -> fails_fast (bind m k).
Proof.
  intros Hm Hk st r st' H. unfold bind in H.
  destruct (m st) as [[a | e] st1] eqn:Hrun.
  - destruct (Hm _ _ _ Hrun) as (made1 & Hlog1 & Hall1).
    destruct (Hk a _ _ _ H) as (made2 & Hlog2 & Hr).
    exists (made1 ++ made2). rewrite Hlog2, Hlog1, app_assoc.
    split; [reflexivity | ]. destruct r as [b | e].
    + now rewrite forallb_app, Hall1, Hr.
    + destruct Hr as (good & x & msg & -> & Hgood & Hx & ->).
      exists (made1 ++ good), x, msg. rewrite app_assoc.
      split; [reflexivity | ]. now rewrite forallb_app, Hall1, Hgood.
  - inversion H; subst. exact (Hm _ _ _ Hrun).
Qed.

Lemma fails_fast_invoke m : fails_fast (bedrock_invoke_model remote m).
Proof.
  intros st r st' H. unfold bedrock_invoke_model in H.
  destruct (invoke_model remote m (server st)) as [[msg | c] s'];
    inversion H; subst; eexists; (split; [reflexivity | ]).
  - exists [], (Invoke m (inl msg)), msg. cbn. auto.
  - reflexivity.
Qed.

Lemma fails_fast_remediate_items items exts : forall acc,
  fails_fast (remediate_items remote items (PList exts) acc).
Proof.
  induction items as [| [file_path file_content] rest IH]; intros acc.
  - apply fails_fast_ret.
  - cbn [remediate_items py_iter].
    apply fails_fast_bind; [exact (@fails_fast_ret (list string) exts) | intros exts'].
    destruct (is_non_code file_path exts'); [apply IH | ].
    apply fails_fast_bind.
    + unfold analyze_code.
      apply fails_fast_bind; [apply fails_fast_invoke | intros; apply fails_fast_ret].
    + intros issues. apply fails_fast_bind; [ | intros; apply IH].
      unfold remediate_code.
      apply fails_fast_bind; [apply fails_fast_invoke | intros; apply fails_fast_ret].
Qed.

(** X24.  No file is remediated in isolation: the first model call that fails
    ends the whole batch with that failure and no map is returned; a
    batch that returns had every call answered. *)
Theorem analyzer_fails_fast code_repo exts st r st' :
  analyze_and_remediate_code remote code_repo (PList exts) st = (r, st') ->
  exists made,
    log st' = log st ++ made
    /\ match r with
       | Ok _ => forallb answered made = true
       | Raise e =>
           exists good x msg,
             made = good ++ [x]
             /\ forallb answered good = true
             /\ failed_with x msg
             /\ e = RemoteError msg
       end.
Proof. apply fails_fast_remediate_items. Qed.

Lemma no_write_among P made :
  (forall x, P x = true -> is_write x = false) ->
  forallb P made = true -> existsb is_write made = false.
Proof.
  intros HP. induction made as [| x made IH]; [reflexivity | ].
  cbn. intros H. apply andb_true_iff in H as [Hx Hall].
  now rewrite (HP x Hx), IH.
Qed.

Lemma is_get_not_write x : is_get x = true -> is_write x = false.
Proof. destruct x as [[u | u p | u p] a | m a]; cbn; congruence. Qed.

Lemma is_invoke_not_write x : is_invoke x = true -> is_write x = false.
Proof. destruct x as [[u | u p | u p] a | m a]; cbn; congruence. Qed.

(** X25.  The repository is written to only after the fetch and the
    remediation of every file have both completed: when an invocation
    has sent any write, both stages had returned. *)
Theorem no_write_without_remediations fuel event st r st' :
  lambda_handler remote urlparse_path fuel event st = (r, st') ->
  exists made,
    log st' = log st ++ made
    /\ (existsb is_write made = true ->
        exists props code_repo st1 remediated st2,
          build_properties (get_parameters event) [] = Ok props
          /\ fetch_repository_contents remote urlparse_path fuel
               (dict_get props "repository_url") (dict_get props "branch_name")
               "" (as_pyval (dict_get props "folders_to_exclude")) st
             = (Ok code_repo, st1)
          /\ analyze_and_remediate_code remote code_repo
               (as_pyval (dict_get props "file_extensions_to_exclude")) st1
             = (Ok remediated, st2)).
Proof.
  intros Hrun.
  assert (Hpipe : forall ag fn res st1,
             pipeline remote urlparse_path fuel event ag fn st = (res, st1) ->
             exists made,
               log st1 = log st ++ made
               /\ (existsb is_write made = true ->
                   exists props code_repo st1 remediated st2,
                     build_properties (get_parameters event) [] = Ok props
                     /\ fetch_repository_contents remote urlparse_path fuel
                          (dict_get props "repository_url")
                          (dict_get props "branch_name") ""
                          (as_pyval (dict_get props "folders_to_exclude")) st
                        = (Ok code_repo, st1)
                     /\ analyze_and_remediate_code remote code_repo
                          (as_pyval (dict_get props "file_extensions_to_exclude"))
                          st1
                        = (Ok remediated, st2))).
  { intros ag fn res st1 Hp. unfold pipeline in Hp.
    unfold bind at 1, lift at 1 in Hp.
    destruct (build_properties (get_parameters event) []) as [props | e].
    2:{ inversion Hp; subst. exists []. rewrite app_nil_r.
        split; [reflexivity | discriminate]. }
    unfold bind at 1 in Hp.
    destruct (fetch_repository_contents _ _ _ _ _ _ _ st)
      as [[code_repo | e] sf] eqn:Hfetch.
    2:{ inversion Hp; subst.
        destruct (@only_fetch W remote urlparse_path fuel _ _ _ _ _ _ _ Hfetch)
          as (made & Hlog & Hall).
        exists made. split; [exact Hlog | ].
        rewrite (@no_write_among is_get made is_get_not_write Hall). discriminate. }
    unfold bind at 1 in Hp.
    destruct (analyze_and_remediate_code _ _ _ sf)
      as [[remediated | e] sa] eqn:Hana.
    2:{ inversion Hp; subst.
        destruct (@only_fetch W remote urlparse_path fuel _ _ _ _ _ _ _ Hfetch)
          as (made1 & Hlog1 & Hall1).
        destruct (@only_remediate_items W remote _ _ _ _ _ _ Hana) as (made2 & Hlog2 & Hall2).
        exists (made1 ++ made2). rewrite Hlog2, Hlog1, app_assoc.
        split; [reflexivity | ]. rewrite existsb_app.
        rewrite (@no_write_among is_get made1 is_get_not_write Hall1).
        rewrite (@no_write_among is_invoke made2 is_invoke_not_write Hall2). discriminate. }
    assert (Hmono : exists made, log st1 = log st ++ made).
    { destruct (@only_fetch W remote urlparse_path fuel _ _ _ _ _ _ _ Hfetch)
        as (made1 & Hlog1 & _).
      destruct (@only_remediate_items W remote _ _ _ _ _ _ Hana) as (made2 & Hlog2 & _).
      revert Hp.
      match goal with
      | |- ?k ?s = _ -> _ =>
          assert (Honly : only anything k);
          [ | intros Hp; destruct (Honly _ _ _ Hp) as (made3 & Hlog3 & _);
              exists (made1 ++ made2 ++ made3);
              rewrite Hlog3, Hlog2, Hlog1, <- !app_assoc; reflexivity ]
      end.
      apply only_bind.
      - unfold create_new_branch.
        repeat first
          [ apply only_bind; [ | intros ? ]
          | apply only_create_blobs
          | apply only_sha_of
          | apply only_ret
          | apply only_raise
          | apply only_lift
          | apply only_requests; reflexivity
          | match goal with |- only _ (if ?c then _ else _) => destruct c end ].
      - intros b. destruct (messageVersion event); [apply only_ret | apply only_raise]. }
    destruct Hmono as (made & Hlog). exists made. split; [exact Hlog | ].
    intros _. exists props, code_repo, sf, remediated, sa. auto. }
  unfold lambda_handler, try_block in Hrun.
  assert (Hnone : exists made, log st = log st ++ made
                               /\ (existsb is_write made = true -> False)).
  { exists []. rewrite app_nil_r. split; [reflexivity | discriminate]. }
  destruct (agent event);
    [ | inversion Hrun; subst; destruct Hnone as (m & H1 & H2);
        exists m; split; [exact H1 | intros H; destruct (H2 H)] ].
  destruct (actionGroup event) as [ag |];
    [ | inversion Hrun; subst; destruct Hnone as (m & H1 & H2);
        exists m; split; [exact H1 | intros H; destruct (H2 H)] ].
  destruct (function event) as [fn |];
    [ | inversion Hrun; subst; destruct Hnone as (m & H1 & H2);
        exists m; split; [exact H1 | intros H; destruct (H2 H)] ].
  destruct (pipeline remote urlparse_path fuel event ag fn st)
    as [res sp] eqn:Hp.
  apply Hpipe in Hp.
  assert (st' = sp) as ->.
  { destruct res as [env | e]; [now inversion Hrun | ].
    destruct e; now inversion Hrun. }
  exact Hp.
Qed.

(** X16.  Without the parameter "file_extensions_to_exclude" an invocation that
    fetched at least one file answers with the error of iterating [None]:
    no model call and no write follows the fetch. *)
Theorem absent_extensions_stop_after_fetch
    fuel event a ag fn mv props st file files st1 :
  agent event = Some a -> actionGroup event = Some ag ->
  function event = Some fn -> messageVersion event = Some mv ->
  build_properties (get_parameters event) [] = Ok props ->
  dict_get props "file_extensions_to_exclude" = None ->
  fetch_repository_contents remote urlparse_path fuel
    (dict_get props "repository_url") (dict_get props "branch_name") ""
    (as_pyval (dict_get props "folders_to_exclude")) st
  = (Ok (file :: files), st1) ->
  lambda_handler remote urlparse_path fuel event st
  = (Ok {| r_actionGroup := ag; r_function := fn;
           r_body := Some "Error: 'NoneType' object is not iterable";
           r_messageVersion := mv |}, st1).
Proof.
  intros Ha Hag Hfn Hmv Hprops Hexts Hfetch.
  unfold lambda_handler, try_block. rewrite Ha, Hag, Hfn.
  unfold pipeline. unfold bind at 1, lift at 1. rewrite Hprops.
  unfold bind at 1. rewrite Hfetch.
  unfold bind at 1. rewrite Hexts. cbn [as_pyval].
  rewrite analyzer_without_extensions.
  unfold error_response. cbn. now rewrite Hmv.
Qed.

End FailFast.

(** X24, witness. *)
Lemma analyzer_fails_fast_witness :
  exists made,
    log (snd mock_analysis) = log Mock.start ++ made
    /\ match fst mock_analysis with
       | Ok _ => forallb answered made = true
       | Raise e =>
           exists good x msg,
             made = good ++ [x]
             /\ forallb answered good = true
             /\ failed_with x msg
             /\ e = RemoteError msg
       end.
Proof.
  apply (@analyzer_fails_fast nat (Mock.remote Mock.healthy) mock_repo [".md"]
           Mock.start (fst mock_analysis) (snd mock_analysis)).
  apply surjective_pairing.
Defined.

(** X25, witness. *)
Lemma no_write_without_remediations_witness :
  exists made,
    log (snd (lambda_handler (Mock.remote Mock.healthy) Mock.urlparse_path 5
                mock_request Mock.start))
    = log Mock.start ++ made
    /\ (existsb is_write made = true ->
        exists props code_repo st1 remediated st2,
          build_properties (get_parameters mock_request) [] = Ok props
          /\ fetch_repository_contents (Mock.remote Mock.healthy)
               Mock.urlparse_path 5
               (dict_get props "repository_url") (dict_get props "branch_name")
               "" (as_pyval (dict_get props "folders_to_exclude")) Mock.start
             = (Ok code_repo, st1)
          /\ analyze_and_remediate_code (Mock.remote Mock.healthy) code_repo
               (as_pyval (dict_get props "file_extensions_to_exclude")) st1
             = (Ok remediated, st2)).
Proof.
  apply (@no_write_without_remediations nat (Mock.remote Mock.healthy)
           Mock.urlparse_path 5 mock_request Mock.start
           (fst (lambda_handler (Mock.remote Mock.healthy) Mock.urlparse_path 5
                   mock_request Mock.start))).
  apply surjective_pairing.
Defined.

(** X16, witness. *)
Lemma absent_extensions_stop_after_fetch_witness :
  fst (lambda_handler (Mock.remote Mock.healthy) Mock.urlparse_path 5
         mock_request_without_extensions Mock.start)
  = Ok {| r_actionGroup := "repo-actions"; r_function := "remediate";
          r_body := Some "Error: 'NoneType' object is not iterable";
          r_messageVersion := "1.0" |}.
Proof.
  set (props := [("repository_url", Mock.repo_link); ("branch_name", "main");
                 ("new_remediated_branch_name", "fix/1")]).
  set (run := fetch_repository_contents (Mock.remote Mock.healthy)
                Mock.urlparse_path 5 (dict_get props "repository_url")
                (dict_get props "branch_name") ""
                (as_pyval (dict_get props "folders_to_exclude")) Mock.start).
  rewrite (@absent_extensions_stop_after_fetch nat (Mock.remote Mock.healthy)
             Mock.urlparse_path 5 mock_request_without_extensions
             "remediator" "repo-actions" "remediate" "1.0" props Mock.start
             ("src/b.py", "# src/b.py")
             (tl (match fst run with Ok files => files | Raise _ => [] end))
             (snd run) eq_refl eq_refl eq_refl eq_refl eq_refl eq_refl).
  - reflexivity.
  - vm_compute. reflexivity.
Defined.

(* ------------------------------------------------------------------ *)
(** ** The fetcher against the specification's notion of an excluded folder *)

Lemma slash_free_contains n : slash_free n <-> Py.contains n "/" = false.
Proof.
  split.
  - intros Hfree. destruct (Py.contains n "/") eqn:Hc; [ | reflexivity].
    apply contains_spec in Hc as (before & after & Hn).
    exfalso. exact (Hfree before after Hn).
  - intros Hc before after Hn.
    assert (Py.contains n "/" = true)
      by (apply contains_spec; exists before, after; exact Hn).
    congruence.
Qed.

Lemma slash_free_cons c n :
  c <> "/"%char -> slash_free n -> slash_free (String c n).
Proof.
  intros Hc Hn before after Heq. destruct before as [| b before]; cbn in Heq.
  - inversion Heq. contradiction.
  - inversion Heq; subst. exact (Hn before after eq_refl).
Qed.

Lemma split_slash_free n : slash_free n -> Py.split "/" n = [n].
Proof.
  induction n as [| c n IH]; intros Hfree; [reflexivity | ].
  assert (Hc : c <> "/"%char).
  { intros ->. exact (Hfree "" n eq_refl). }
  assert (Hn : slash_free n).
  { intros before after ->. exact (Hfree (String c before) after eq_refl). }
  cbn [Py.split]. rewrite (IH Hn).
  destruct (Ascii.eqb_spec c "/"); [contradiction | reflexivity].
Qed.

Lemma last_segment_exists p : exists n, last_segment p n.
Proof.
  induction p as [| c p (n & Hfree & Hp)].
  - exists "". split; [ | now left]. intros before after H.
    destruct before; discriminate.
  - destruct (Ascii.eqb_spec c "/") as [-> | Hc].
    + destruct Hp as [-> | [parent ->]].
      * exists n. split; [exact Hfree | right]. now exists "".
      * exists n. split; [exact Hfree | right]. now exists (String "/" parent).
    + destruct Hp as [-> | [parent ->]].
      * exists (String c n). split; [now apply slash_free_cons | now left].
      * exists n. split; [exact Hfree | right]. now exists (String c parent).
Qed.

Lemma last_segment_computed p n :
  last_segment p n -> Py.last_item (Py.split "/" p) = n.
Proof.
  intros [Hfree [-> | [parent ->]]].
  - now rewrite split_slash_free.
  - destruct (@split_last_segment parent n) as (l & _ & ->).
    + now apply slash_free_contains.
    + apply last_last.
Qed.

Lemma last_segment_spec p n :
  last_segment p n <-> Py.last_item (Py.split "/" p) = n.
Proof.
  split; [apply last_segment_computed | ].
  intros <-. destruct (last_segment_exists p) as (n & Hn).
  now rewrite (last_segment_computed Hn).
Qed.

Section AgainstSpecification.

Variable listing : string -> list Item.
Variable names : list string.

Lemma excluded_name_spec item :
  excluded_name names item = true <-> excluded_folder names (i_path item).
Proof.
  unfold excluded_name, excluded_folder, folder_name_of.
  rewrite existsb_exists. split.
  - intros (n & Hin & Heq). apply String.eqb_eq in Heq.
    exists n. split; [exact Hin | now apply last_segment_spec].
  - intros (n & Hin & Hseg). exists n. split; [exact Hin | ].
    apply String.eqb_eq. now apply last_segment_spec.
Qed.

Lemma entered_spec item :
  entered names item = true
  <-> i_type item = "dir" /\ ~ excluded_folder names (i_path item).
Proof.
  unfold entered. rewrite andb_true_iff, negb_true_iff, String.eqb_eq.
  rewrite <- excluded_name_spec.
  destruct (excluded_name names item); intuition congruence.
Qed.

Lemma Below_Descends d d' :
  Below listing names d d' <-> Descends listing names d d'.
Proof.
  split.
  - induction 1 as [| d item d' Hin Hdir Hex _ IH]; [constructor | ].
    eapply Descends_into; [exact Hin | | exact IH].
    apply entered_spec. auto.
  - induction 1 as [| d item d' Hin Hent _ IH]; [constructor | ].
    apply entered_spec in Hent as [Hdir Hex].
    eapply Below_into; eauto.
Qed.

Lemma Expected_Fetched root p :
  Expected listing names root p <-> Fetched listing names root p.
Proof.
  unfold Expected, Fetched. split; intros (d & item & Hd & H);
    exists d, item; (split; [now apply Below_Descends | exact H]).
Qed.

Lemma depth_within_shallow fuel : forall d,
  depth_within listing names fuel d <-> shallow listing names fuel d = true.
Proof.
  induction fuel as [| fuel IH]; intros d; cbn [depth_within shallow].
  - split; [contradiction | discriminate].
  - rewrite forallb_forall. split.
    + intros Hdepth item Hin.
      destruct (entered names item) eqn:Hent; [ | reflexivity]. cbn.
      apply IH. apply entered_spec in Hent as [Hdir Hex]. now apply Hdepth.
    + intros Hshallow item Hin Hdir Hex. apply IH.
      assert (Hent : entered names item = true) by (apply entered_spec; auto).
      specialize (Hshallow item Hin). now rewrite Hent in Hshallow.
Qed.

End AgainstSpecification.

(** C5.  Let the hosting API list a directory tree, every listing of a
    folder to visit succeeding and every download being answered, the
    tree no deeper than the recursion allows.  Then
    fetch_repository_contents returns a FileMap whose keys are exactly the
    files expected: those listed at the root or in a folder below it, at
    any depth, such that no folder on the way down bears an excluded name.
    The name of a folder is the last segment of its path (what follows
    the last slash), compared as a whole with the entries of the
    exclusion set. *)
Theorem C5_fetch_omits_excluded_folders W (remote : Remote W) urlparse_path
    (listing : string -> list Item) (names : list string)
    repo_link branch repo_path fuel st :
  repo_path_of urlparse_path repo_link = Ok repo_path ->
  (forall d, Below listing names "" d -> forall s,
     exists resp s',
       send remote (GET (contents_url repo_path d branch)) s = (inr resp, s')
       /\ http_error_msg resp = None
       /\ json_items resp = listing d) ->
  (forall d item, Below listing names "" d -> In item (listing d) ->
     i_type item = "file" -> forall s,
     exists resp s', send remote (GET (i_download_url item)) s = (inr resp, s')) ->
  depth_within listing names fuel "" ->
  exists files st',
    fetch_repository_contents remote urlparse_path fuel repo_link branch ""
      (PList names) st = (Ok files, st')
    /\ forall p, In p (keys files) <-> Expected listing names "" p.
Proof.
  intros Hrp Hlist Hdl Hdepth.
  destruct (@fetch_from listing names W remote urlparse_path repo_link branch
              repo_path "" Hrp) with (fuel := fuel) (d := "") (st := st)
    as (files & st' & Hrun & Hkeys).
  - intros d Hd. apply Hlist. now apply Below_Descends.
  - intros d item Hd. apply Hdl. now apply Below_Descends.
  - constructor.
  - now apply depth_within_shallow.
  - exists files, st'. split; [exact Hrun | ].
    intros p. rewrite Hkeys. symmetry. apply Expected_Fetched.
Qed.

(** C5, witness: the mock repository with "node_modules" excluded.  The
    files under "node_modules" and under "src/node_modules" are left out,
    the four others are fetched. *)
Lemma C5_fetch_omits_excluded_folders_witness :
  exists files st',
    fetch_repository_contents (Mock.remote Mock.healthy) Mock.urlparse_path 5
      (Some Mock.repo_link) (Some "main") "" (PList ["node_modules"]) Mock.start
    = (Ok files, st')
    /\ keys files = ["src/b.py"; "src/lib/c.py"; "a.py"; "README.md"]
    /\ forall p, In p (keys files)
                 <-> Expected Mock.listing ["node_modules"] "" p.
Proof.
  destruct (@C5_fetch_omits_excluded_folders nat (Mock.remote Mock.healthy)
              Mock.urlparse_path Mock.listing ["node_modules"]
              (Some Mock.repo_link) (Some "main") Mock.repo_path 5 Mock.start)
    as (files & st' & Hrun & Hkeys).
  - reflexivity.
  - intros d Hd s. apply Below_Descends, mock_descent in Hd.
    cbn in Hd. destruct Hd as [<- | [<- | [<- | []]]];
      eexists; eexists; (split; [reflexivity | split; reflexivity]).
  - intros d item _ _ _ s. eexists. eexists. reflexivity.
  - apply depth_within_shallow. reflexivity.
  - exists files, st'. split; [exact Hrun | ]. split; [ | exact Hkeys].
    vm_compute in Hrun. inversion Hrun. reflexivity.
Defined.

(* ------------------------------------------------------------------ *)
(** ** A path listed twice *)

Section LaterReplacesEarlier.

Variable W : Type.
Variable remote : Remote W.
Variable urlparse_path : string -> Res string.

(** Entries that are neither descended into nor downloaded to the key
    [k] leave the content stored under [k] as it is. *)
Lemma fetch_items_keeps (descend : string -> M W dict) exclude_folders k v :
  forall after,
  (forall it, In it after ->
     i_type it <> "dir" /\ (i_type it = "file" -> i_path it <> k)) ->
  forall files st files' st',
    fetch_items remote descend exclude_folders after files st = (Ok files', st') ->
    dict_get files k = Some v -> dict_get files' k = Some v.
Proof.
  induction after as [| it after IH]; intros Hafter files st files' st' Hrun Hget.
  - inversion Hrun; subst. exact Hget.
  - destruct (Hafter it (or_introl eq_refl)) as [Hnodir Hother].
    assert (Hrest : forall it', In it' after ->
              i_type it' <> "dir" /\ (i_type it' = "file" -> i_path it' <> k))
      by (intros it' Hin; apply Hafter; now right).
    cbn [fetch_items] in Hrun.
    destruct (String.eqb_spec (i_type it) "dir") as [Hd | _]; [contradiction | ].
    destruct (String.eqb_spec (i_type it) "file") as [Hf | _].
    + unfold bind in Hrun.
      destruct (requests remote _ st) as [[r | e] st1]; [ | discriminate].
      eapply IH; [exact Hrest | exact Hrun | ].
      rewrite dict_get_set_other; [exact Hget | now apply Hother].
    + eapply IH; eauto.
Qed.

Lemma fetch_items_last (descend : string -> M W dict) exclude_folders
    item after resp :
  i_type item = "file" ->
  (forall it, In it after ->
     i_type it <> "dir" /\ (i_type it = "file" -> i_path it <> i_path item)) ->
  (forall s, exists s', send remote (GET (i_download_url item)) s = (inr resp, s')) ->
  forall before files st files' st',
    fetch_items remote descend exclude_folders (before ++ item :: after) files st
    = (Ok files', st') ->
    dict_get files' (i_path item) = Some (text resp).
Proof.
  intros Hfile Hafter Hsend.
  induction before as [| b before IH]; intros files st files' st' Hrun.
  - cbn [app fetch_items] in Hrun. rewrite Hfile in Hrun. cbn in Hrun.
    unfold bind, requests in Hrun.
    destruct (Hsend (server st)) as [s' Hs]. rewrite Hs in Hrun.
    eapply fetch_items_keeps; [exact Hafter | exact Hrun | ].
    apply dict_get_set_same.
  - cbn [app fetch_items] in Hrun.
    destruct (String.eqb (i_type b) "dir").
    + destruct (skips_folder exclude_folders b); [eapply IH; eauto | ].
      unfold bind in Hrun.
      destruct (descend (i_path b) st) as [[sub | e] st1]; [ | discriminate].
      eapply IH; exact Hrun.
    + destruct (String.eqb (i_type b) "file"); [ | eapply IH; eauto].
      unfold bind in Hrun.
      destruct (requests remote _ st) as [[r | e] st1]; [ | discriminate].
      eapply IH; exact Hrun.
Qed.

End LaterReplacesEarlier.

(** X7.  The FileMap the fetcher returns has each path once, also when the
    hosting API lists a path twice, and the later content replaces the
    earlier one: a file entry of the listing after which no folder and no
    file of the same path is listed is stored with the text that its own
    download address answers. *)
Theorem fetch_keys_distinct W (remote : Remote W) urlparse_path fuel repo_link
    branch exclude_folders path st files st' :
  fetch_repository_contents remote urlparse_path fuel repo_link branch path
    exclude_folders st = (Ok files, st') ->
  NoDup (keys files)
  /\ forall repo_path listed before item after resp,
       repo_path_of urlparse_path repo_link = Ok repo_path ->
       (forall s, exists s',
          send remote (GET (contents_url repo_path path branch)) s
          = (inr listed, s')) ->
       json_items listed = before ++ item :: after ->
       i_type item = "file" ->
       (forall it, In it after ->
          i_type it <> "dir"
          /\ (i_type it = "file" -> i_path it <> i_path item)) ->
       (forall s, exists s',
          send remote (GET (i_download_url item)) s = (inr resp, s')) ->
       dict_get files (i_path item) = Some (text resp).
Proof.
  intros Hrun. split; [eapply fetch_NoDup; exact Hrun | ].
  intros repo_path listed before item after resp Hrp Hlist Hitems Hfile Hafter Hsend.
  destruct fuel as [| fuel]; [discriminate | ].
  cbn [fetch_repository_contents] in Hrun. unfold bind at 1 in Hrun.
  unfold lift in Hrun. rewrite Hrp in Hrun.
  unfold bind at 1 in Hrun. unfold requests at 1 in Hrun.
  destruct (Hlist (server st)) as [s1 Hs1]. rewrite Hs1 in Hrun.
  unfold bind at 1 in Hrun.
  destruct (raise_for_status listed _) as [[[] | e] st2]; [ | discriminate].
  rewrite Hitems in Hrun.
  eapply fetch_items_last; eauto.
Qed.

(** X7, witness: the path "a.py" listed twice is stored once, with the
    content of the second entry. *)
Lemma fetch_keys_distinct_witness :
  exists files,
    fst (fetch_repository_contents listed_twice Mock.urlparse_path 5
           (Some Mock.repo_link) (Some "main") "" PNone Mock.start) = Ok files
    /\ NoDup (keys files)
    /\ dict_get files "a.py" = Some "second".
Proof.
  exists [("a.py", "second")]. split; [reflexivity | ].
  destruct (@fetch_keys_distinct nat listed_twice Mock.urlparse_path 5
              (Some Mock.repo_link) (Some "main") PNone "" Mock.start
              [("a.py", "second")]
              (snd (fetch_repository_contents listed_twice Mock.urlparse_path 5
                      (Some Mock.repo_link) (Some "main") "" PNone Mock.start)))
    as [Hnd Hlast].
  - reflexivity.
  - split; [exact Hnd | ].
    apply (Hlast Mock.repo_path
             (Mock.answer 200 "OK"
                (contents_url Mock.repo_path "" (Some "main")) "" None
                [ {| i_type := "file"; i_path := "a.py"; i_download_url := "first" |};
                  {| i_type := "file"; i_path := "a.py"; i_download_url := "second" |} ])
             [ {| i_type := "file"; i_path := "a.py"; i_download_url := "first" |} ]
             {| i_type := "file"; i_path := "a.py"; i_download_url := "second" |}
             []
             (Mock.answer 200 "OK" "second" "second" None [])).
    + reflexivity.
    + intros s. exists s. reflexivity.
    + reflexivity.
    + reflexivity.
    + intros it [].
    + intros s. exists s. reflexivity.
Defined.
